(** * Traeger entity platforms: derived-state classifiers and the cook-cycle sequencer

    Shallow embedding of
    - [custom_components/traeger/sensor.py]: [HeatingState], [ProbeState];
    - [custom_components/traeger/number.py]: [CookCycNumberEntity],
      [TraegerNumberEntity].

    Python objects are records and attribute writes are explicit state
    passing. A raised exception is an outcome next to a returned value and
    keeps the writes made before it. Dicts with free keys (cook steps) are
    finite maps, lists are lists read by index, and the service calls an
    evaluation schedules are collected in a log.

    The file has three parts: the model, one module per class; the
    vocabulary the properties are stated in, with the sample inputs; the
    lemmas and theorems. *)

From Stdlib Require Import ZArith QArith Qround Ascii String Lia Lqa.
From stdpp Require Import base decidable option list gmap strings pretty.

Local Open Scope string_scope.
Local Open Scope Z_scope.

(** * The model *)

(** ** Python values and builtins used by the two modules *)

Module Py.

Inductive Exn : Type :=
| IndexError
| TypeError
| NotImplementedError (msg : string).

(** Outcome of running a method body: a returned value or a raised
    exception. *)
Inductive Result (A : Type) : Type :=
| Ok (a : A)
| Raise (e : Exn).
Arguments Ok {A} a.
Arguments Raise {A} e.

(** [round(x)] on a finite float: the nearest integer, ties to the even one.
    A finite float is a rational, and [round] and comparisons are exact on
    it. *)
Definition round (x : Q) : Z :=
  let f := Qfloor x in
  match Qcompare (x - inject_Z f) (1 # 2) with
  | Lt => f
  | Gt => f + 1
  | Eq => if Z.even f then f else f + 1
  end.

(** [l[i]] on a list: negative indices count from the end, anything else
    out of range raises [IndexError]. *)
Definition getitem {A : Type} (l : list A) (i : Z) : Result A :=
  let n := Z.of_nat (length l) in
  let j := if bool_decide (i < 0) then i + n else i in
  if bool_decide (0 <= j < n) then
    match l !! Z.to_nat j with
    | Some x => Ok x
    | None => Raise IndexError
    end
  else Raise IndexError.

(** Truth value of an [int] or [bool] ([True == 1], [False == 0]). *)
Definition truthy (v : Z) : bool := negb (v =? 0).

Definition is_alnum (c : ascii) : bool :=
  let n := nat_of_ascii c in
  ((48 <=? n) && (n <=? 57) || (65 <=? n) && (n <=? 90)
   || (97 <=? n) && (n <=? 122))%nat.

(** [re.sub("[^A-Za-z0-9]+", "", s)]: every character outside the class is
    dropped. *)
Fixpoint re_sub_non_alnum (s : string) : string :=
  match s with
  | EmptyString => EmptyString
  | String c s' =>
    if is_alnum c then String c (re_sub_non_alnum s')
    else re_sub_non_alnum s'
  end.

Definition lower_ascii (c : ascii) : ascii :=
  let n := nat_of_ascii c in
  if ((65 <=? n) && (n <=? 90))%nat then ascii_of_nat (n + 32) else c.

(** [s.lower()] on a string of ASCII letters and digits. *)
Fixpoint lower (s : string) : string :=
  match s with
  | EmptyString => EmptyString
  | String c s' => String (lower_ascii c) (lower s')
  end.

End Py.

Import Py.

(** ** Constants of [const.py]

    [const.py] is not among the sources: the grill-mode codes and the minimum
    cook temperatures it defines are parameters of the development. *)

Class GrillConsts : Type := {
  GRILL_MODE_OFFLINE : Z;
  GRILL_MODE_SHUTDOWN : Z;
  GRILL_MODE_COOL_DOWN : Z;
  GRILL_MODE_CUSTOM_COOK : Z;
  GRILL_MODE_MANUAL_COOK : Z;
  GRILL_MODE_PREHEATING : Z;
  GRILL_MODE_IGNITING : Z;
  GRILL_MODE_IDLE : Z;
  GRILL_MODE_SLEEPING : Z;
  GRILL_MIN_TEMP_C : Z;
  GRILL_MIN_TEMP_F : Z
}.

(** The mode codes name different modes. *)
Class GrillModesDistinct `{GrillConsts} : Prop :=
  grill_modes_NoDup :
    NoDup [GRILL_MODE_OFFLINE; GRILL_MODE_SHUTDOWN; GRILL_MODE_COOL_DOWN;
           GRILL_MODE_CUSTOM_COOK; GRILL_MODE_MANUAL_COOK;
           GRILL_MODE_PREHEATING; GRILL_MODE_IGNITING; GRILL_MODE_IDLE;
           GRILL_MODE_SLEEPING].

(** One assignment of the codes, used to run the model on concrete inputs. *)
Definition sample_consts : GrillConsts := {|
  GRILL_MODE_OFFLINE := 99;
  GRILL_MODE_SHUTDOWN := 9;
  GRILL_MODE_COOL_DOWN := 8;
  GRILL_MODE_CUSTOM_COOK := 7;
  GRILL_MODE_MANUAL_COOK := 6;
  GRILL_MODE_PREHEATING := 5;
  GRILL_MODE_IGNITING := 4;
  GRILL_MODE_IDLE := 3;
  GRILL_MODE_SLEEPING := 2;
  GRILL_MIN_TEMP_C := 75;
  GRILL_MIN_TEMP_F := 165
|}.

(** [grill_units] is only ever compared with [UnitOfTemperature.CELSIUS]. *)
Inductive UnitOfTemperature : Type := CELSIUS | FAHRENHEIT.

Definition is_celsius (u : UnitOfTemperature) : bool :=
  match u with CELSIUS => true | FAHRENHEIT => false end.

(** ** The device snapshot *)

(** Modelled from the spec: [entity.py], whose [TraegerBaseEntity] fills
    [grill_state], [grill_units], [grill_details], [grill_limits] and
    [grill_features], is not among the sources. Following the spec's
    GrillSnapshot they are one record, present or absent as a whole
    ([self.grill_state is None]); its fields are the keys the two modules
    read. Temperatures and timer stamps are integers; flags are integers
    read by truth value or compared with [1]. *)
Record Snapshot : Type := {
  gs_connected : bool;
  gs_system_status : Z;
  gs_set : Z;
  gs_grill : Z;
  gs_probe : Z;
  gs_smoke : Z;
  gs_keepwarm : Z;
  gs_cook_timer_complete : Z;
  gs_probe_alarm_fired : Z;
  gs_cook_timer_start : Z;
  gs_cook_timer_end : Z;
  grill_units : UnitOfTemperature;
  friendlyName : string;
  max_grill_temp : Z;
  super_smoke_enabled : Z
}.

(** ** [sensor.py]: class [HeatingState] *)

Module HeatingState.

(** The attributes [state] reads and writes. *)
Record t : Type := {
  previous_target_temp : option Z;
  previous_state : string
}.

(** [__init__] *)
Definition init : t :=
  {| previous_target_temp := None; previous_state := "idle" |}.

Section WithConsts.
Context `{GrillConsts}.

Definition preheat_modes : list Z :=
  [GRILL_MODE_PREHEATING; GRILL_MODE_IGNITING].

Definition cook_modes : list Z :=
  [GRILL_MODE_CUSTOM_COOK; GRILL_MODE_MANUAL_COOK].

(** [TraegerBaseSensor.available], which [HeatingState] inherits: it reads
    the snapshot and writes no attribute. *)
Definition available (self : t) (grill_state : option Snapshot) : bool * t :=
  match grill_state with
  | None => (false, self)
  | Some gs => (gs_connected gs, self)
  end.

(** The [if]/[elif] chain on [self.previous_state] (lines 215-244). [None]
    is the catch-all branch, which assigns no label and forces
    [target_changed]. *)
Definition hysteresis (previous_state : string)
    (current_temp target_temp low_temp high_temp : Z) : option string :=
  if bool_decide (previous_state ∈ ["heating"; "preheating"]) then
    Some (if bool_decide (current_temp >= target_temp)
          then "at_temp" else "heating")
  else if bool_decide (previous_state = "cooling") then
    Some (if bool_decide (current_temp <= target_temp)
          then "at_temp" else "cooling")
  else if bool_decide (previous_state = "at_temp") then
    Some (if bool_decide (current_temp > high_temp) then "over_temp"
          else if bool_decide (current_temp < low_temp) then "under_temp"
          else "at_temp")
  else if bool_decide (previous_state = "under_temp") then
    Some (if bool_decide (current_temp > low_temp)
          then "at_temp" else "under_temp")
  else if bool_decide (previous_state = "over_temp") then
    Some (if bool_decide (current_temp < high_temp)
          then "at_temp" else "over_temp")
  else None.

(** Lines 246-250. *)
Definition on_target_changed (current_temp target_temp : Z) : string :=
  if bool_decide (current_temp <= target_temp) then "heating" else "cooling".

(** The property [state]: the label and the updated attributes. *)
Definition state (self : t) (grill_state : option Snapshot) : string * t :=
  match grill_state with
  | None => ("idle", self)
  | Some gs =>
    let target_temp := gs_set gs in
    let grill_mode := gs_system_status gs in
    let current_temp := gs_grill gs in
    let target_changed :=
      bool_decide (Some target_temp ≠ previous_target_temp self) in
    let min_cook_temp :=
      if is_celsius (grill_units gs) then GRILL_MIN_TEMP_C
      else GRILL_MIN_TEMP_F in
    let temp_swing := if is_celsius (grill_units gs) then 11 else 20 in
    let low_temp := target_temp - temp_swing in
    let high_temp := target_temp + temp_swing in
    let state :=
      if bool_decide (grill_mode ∈ preheat_modes) then
        if bool_decide (current_temp < min_cook_temp) then "preheating"
        else "heating"
      else if bool_decide (grill_mode ∈ cook_modes) then
        match hysteresis (previous_state self) current_temp target_temp
                low_temp high_temp with
        | Some state =>
          if target_changed then on_target_changed current_temp target_temp
          else state
        | None => on_target_changed current_temp target_temp
        end
      else if bool_decide (grill_mode = GRILL_MODE_COOL_DOWN) then "cool_down"
      else "idle" in
    (state,
     {| previous_target_temp := Some target_temp; previous_state := state |})
  end.

(** The property [icon] (lines 186-190). It reads [self.state], so it runs
    the classifier once, attribute writes included. *)
Definition icon (self : t) (grill_state : option Snapshot) : string * t :=
  let '(state, self) := state self grill_state in
  (if bool_decide (state = "over_temp") then "mdi:fire-alert"
   else "mdi:fire",
   self).

End WithConsts.

End HeatingState.

(** ** [sensor.py]: class [GrillState] *)

Module GrillState.

Section WithConsts.
Context `{GrillConsts}.

(** The property [state] (lines 148-171). Reading
    [self.grill_state["system_status"]] on an absent snapshot raises
    [TypeError]. *)
Definition state (grill_state : option Snapshot) : Result string :=
  match grill_state with
  | None => Raise TypeError
  | Some gs =>
    let state := gs_system_status gs in
    Ok (if bool_decide (state = GRILL_MODE_COOL_DOWN) then "cool_down"
        else if bool_decide (state = GRILL_MODE_CUSTOM_COOK)
        then "cook_custom"
        else if bool_decide (state = GRILL_MODE_MANUAL_COOK)
        then "cook_manual"
        else if bool_decide (state = GRILL_MODE_PREHEATING) then "preheating"
        else if bool_decide (state = GRILL_MODE_IGNITING) then "igniting"
        else if bool_decide (state = GRILL_MODE_IDLE) then "idle"
        else if bool_decide (state = GRILL_MODE_SLEEPING) then "sleeping"
        else if bool_decide (state = GRILL_MODE_OFFLINE) then "offline"
        else if bool_decide (state = GRILL_MODE_SHUTDOWN) then "shutdown"
        else "unknown")
  end.

End WithConsts.

End GrillState.

(** ** [sensor.py]: class [ProbeState] *)

(** [self.grill_accessory]: the accessory's [con] flag and, flattened, the
    entries of its [acc_type] sub-dict; [alarm_fired] may be missing. *)
Record Accessory : Type := {
  acc_con : Z;
  acc_set_temp : Z;
  acc_get_temp : Z;
  acc_alarm_fired : option Z
}.

Module ProbeState.

Record t : Type := {
  previous_target_temp : option Z;
  probe_alarm : bool
}.

(** [__init__] *)
Definition init : t :=
  {| previous_target_temp := None; probe_alarm := false |}.

Definition set_probe_alarm (b : bool) (self : t) : t :=
  {| previous_target_temp := previous_target_temp self; probe_alarm := b |}.

Definition set_previous_target_temp (v : Z) (self : t) : t :=
  {| previous_target_temp := Some v; probe_alarm := probe_alarm self |}.

(** The property [available]: its truth value and the updated attributes. *)
Definition available (self : t) (grill_state : option Snapshot)
    (grill_accessory : option Accessory) : bool * t :=
  match grill_state, grill_accessory with
  | Some gs, Some acc =>
    if gs_connected gs then
      let connected := acc_con acc in
      let self := if truthy connected then self
                  else set_probe_alarm false self in
      (truthy connected, self)
    else (false, set_probe_alarm false self)
  | _, _ => (false, set_probe_alarm false self)
  end.

Section WithConsts.
Context `{GrillConsts}.

Definition active_modes : list Z :=
  [GRILL_MODE_PREHEATING; GRILL_MODE_IGNITING; GRILL_MODE_CUSTOM_COOK;
   GRILL_MODE_MANUAL_COOK].

Definition fell_out_temp (u : UnitOfTemperature) : Z :=
  if is_celsius u then 102 else 215.

Definition close_temp (u : UnitOfTemperature) : Z :=
  if is_celsius u then 3 else 5.

(** Lines 333-340: the alarm latch. *)
Definition latch (self : t) (alarm_fired : option Z) (target_changed : bool)
    (target_temp grill_mode : Z) : t :=
  match alarm_fired with
  | None => set_probe_alarm false self
  | Some fired =>
    if truthy fired then set_probe_alarm true self
    else if target_changed && bool_decide (target_temp ≠ 0)
            || bool_decide (grill_mode ∉ active_modes)
    then set_probe_alarm false self
    else self
  end.

(** The property [state]. Reading [self.grill_state["system_status"]] on an
    absent snapshot raises [TypeError]. *)
Definition state (self : t) (grill_state : option Snapshot)
    (grill_accessory : option Accessory) : Result string * t :=
  match grill_accessory with
  | None => (Ok "idle", self)
  | Some acc =>
    let target_temp := acc_set_temp acc in
    let probe_temp := acc_get_temp acc in
    let target_changed :=
      bool_decide (Some target_temp ≠ previous_target_temp self) in
    match grill_state with
    | None => (Raise TypeError, self)
    | Some gs =>
      let grill_mode := gs_system_status gs in
      let self :=
        latch self (acc_alarm_fired acc) target_changed target_temp
          grill_mode in
      let '(state, self) :=
        if bool_decide (probe_temp >= fell_out_temp (grill_units gs)) then
          ("fell_out", self)
        else if probe_alarm self then ("at_temp", self)
        else if bool_decide (target_temp ≠ 0)
                && bool_decide (grill_mode ∈ active_modes) then
          (if bool_decide
                (probe_temp + close_temp (grill_units gs) >= target_temp)
           then "close" else "set", self)
        else ("idle", set_probe_alarm false self) in
      (Ok state, set_previous_target_temp target_temp self)
    end
  end.

End WithConsts.

End ProbeState.

(** ** [number.py]: class [CookCycNumberEntity] *)

(** A value of a service call's data dict. *)
Inductive Value : Type :=
| VStr (s : string)
| VInt (n : Z).

(** [hass.services.async_call(domain, service, service_data, False)] *)
Record ServiceCall : Type := {
  domain : string;
  service : string;
  service_data : list (string * Value)
}.

Module CookCycNumberEntity.

(** The attributes [native_value] reads and writes. A cook step is a dict
    from option names to integers ([True] is [1]); the steps of one cycle
    are distinct objects. *)
Record t : Type := {
  grill_id : string;
  num_value : Z;
  old_num_value : Z;
  cook_cycle : list (gmap string Z)
}.

(** [__init__] *)
Definition init (grill_id : string) : t :=
  {| grill_id := grill_id; num_value := 0; old_num_value := 0;
     cook_cycle := [] |}.

(** The two blocks of [native_value] that schedule service calls. *)
Inductive Block : Type :=
| ScanAdvance      (* lines 114-150 *)
| ImplementStep.   (* lines 153-247 *)

(** One [hass.async_create_task(hass.services.async_call(...))]. Next to the
    call, the log keeps the block that scheduled it and the number of the
    step [curstep] it was read from; no definition reads these two back. *)
Record Issued : Type := {
  issued_by : Block;
  issued_step : Z;
  issued_call : ServiceCall
}.

(** *** The method monad: attributes, scheduled calls, exceptions

    An exception keeps the attribute writes and the calls made before it. *)
Definition M (A : Type) : Type := t -> Result A * t * list Issued.

Definition ret {A : Type} (a : A) : M A := fun self => (Ok a, self, []).

Definition bind {A B : Type} (m : M A) (k : A -> M B) : M B := fun self =>
  match m self with
  | (Ok a, self1, log1) =>
    match k a self1 with
    | (r, self2, log2) => (r, self2, (log1 ++ log2)%list)
    end
  | (Raise e, self1, log1) => (Raise e, self1, log1)
  end.

Declare Scope py_scope.
Delimit Scope py_scope with py.
Notation "x <- m ;; k" := (bind m (fun x => k))
  (at level 100, m at next level, right associativity) : py_scope.
Notation "m ;; k" := (bind m (fun _ => k))
  (at level 100, right associativity) : py_scope.
Local Open Scope py_scope.

(** The three parts of an outcome. *)
Definition result {A : Type} (o : Result A * t * list Issued) : Result A :=
  o.1.1.

Definition after {A : Type} (o : Result A * t * list Issued) : t := o.1.2.

Definition issued {A : Type} (o : Result A * t * list Issued)
    : list Issued := o.2.

Definition get_self : M t := fun self => (Ok self, self, []).

Definition lift {A : Type} (r : Result A) : M A := fun self => (r, self, []).

Definition pass : M unit := ret tt.

Definition with_num_value (v : Z) (self : t) : t :=
  {| grill_id := grill_id self; num_value := v;
     old_num_value := old_num_value self; cook_cycle := cook_cycle self |}.

Definition with_old_num_value (v : Z) (self : t) : t :=
  {| grill_id := grill_id self; num_value := num_value self;
     old_num_value := v; cook_cycle := cook_cycle self |}.

Definition with_cook_cycle (steps : list (gmap string Z)) (self : t) : t :=
  {| grill_id := grill_id self; num_value := num_value self;
     old_num_value := old_num_value self; cook_cycle := steps |}.

(** [self.num_value = v] *)
Definition set_num_value (v : Z) : M unit := fun self =>
  (Ok tt, with_num_value v self, []).

(** [self.old_num_value = v] *)
Definition set_old_num_value (v : Z) : M unit := fun self =>
  (Ok tt, with_old_num_value v self, []).

(** [self.cook_cycle = steps] *)
Definition set_cook_cycle (steps : list (gmap string Z)) : M unit :=
  fun self => (Ok tt, with_cook_cycle steps self, []).

(** [curstep[key] = v], where [curstep] is [self.cook_cycle[i]] for a valid
    [i >= 0]: the dict in the list is the one written. *)
Definition setitem_curstep (i : Z) (curstep : gmap string Z) (key : string)
    (v : Z) : M unit :=
  self <- get_self ;;
  set_cook_cycle (<[Z.to_nat i := <[key := v]> curstep]> (cook_cycle self)).

Definition async_call (by_block : Block) (step : Z) (domain service : string)
    (service_data : list (string * Value)) : M unit := fun self =>
  (Ok tt, self,
   [{| issued_by := by_block; issued_step := step;
       issued_call := {| domain := domain; service := service;
                         service_data := service_data |} |}]).

Section WithConsts.
Context `{GrillConsts}.

(** Lines 103-108. *)
Definition not_cooking_modes : list Z :=
  [GRILL_MODE_COOL_DOWN; GRILL_MODE_SLEEPING; GRILL_MODE_SHUTDOWN;
   GRILL_MODE_IDLE].

(** Lines 116-127: whether the scan increments [num_value]. *)
Definition advance_due (curstep : gmap string Z) (gs : Snapshot) : bool :=
  match curstep !! "use_timer" with
  | Some use_timer =>
    truthy use_timer && truthy (gs_cook_timer_complete gs)
  | None =>
    if truthy (gs_probe_alarm_fired gs) then true
    else
      match curstep !! "act_temp_adv" with
      | Some act_temp_adv => bool_decide (gs_grill gs > act_temp_adv)
      | None =>
        match curstep !! "probe_act_temp_adv" with
        | Some probe_act_temp_adv =>
          bool_decide (gs_probe gs > probe_act_temp_adv)
        | None => false
        end
      end
  end.

(** Lines 130-150: the in-step change. *)
Definition in_step_change (n : Z) (curstep : gmap string Z) (gs : Snapshot)
    : M unit :=
  self <- get_self ;;
  match curstep !! "min_delta", curstep !! "max_grill_delta_temp" with
  | Some min_delta, Some max_grill_delta_temp =>
    let over := bool_decide (max_grill_delta_temp > max_grill_temp gs) in
    (if over
     then setitem_curstep (n - 1) curstep "max_grill_delta_temp"
            (max_grill_temp gs)
     else pass) ;;
    let max_grill_delta_temp :=
      if over then max_grill_temp gs else max_grill_delta_temp in
    if bool_decide (gs_set gs < max_grill_delta_temp) then
      if bool_decide (gs_probe gs > gs_set gs - min_delta) then
        let set_temp := gs_set gs + 5 in
        async_call ScanAdvance n "climate" "set_temperature"
          [("entity_id", VStr ("climate." ++ grill_id self ++ "_climate"));
           ("temperature", VInt (round (inject_Z set_temp)))]
      else pass
    else pass
  | _, _ => pass
  end.

(** Line 114: still on the step of the previous evaluation. *)
Definition on_same_step (self : t) : bool :=
  bool_decide (num_value self > 0)
  && bool_decide (num_value self = old_num_value self).

(** Lines 153-154: just arrived on a step. *)
Definition on_new_step (self : t) : bool :=
  bool_decide (num_value self > 0)
  && bool_decide (num_value self ≠ old_num_value self).

(** Lines 114-150: scan for next step advance. *)
Definition scan_for_next_step_advance (gs : Snapshot) : M unit :=
  self <- get_self ;;
  if on_same_step self then
    let n := num_value self in
    curstep <- lift (getitem (cook_cycle self) (n - 1)) ;;
    (if advance_due curstep gs then set_num_value (n + 1) else pass) ;;
    in_step_change n curstep gs
  else pass.

(** Lines 153-247: implement next step. *)
Definition implement_next_step (gs : Snapshot) : M unit :=
  self <- get_self ;;
  if on_new_step self then
    let n := num_value self in
    curstep <- lift (getitem (cook_cycle self) (n - 1)) ;;
    (match curstep !! "time_set" with
     | Some time_set =>
       async_call ImplementStep n "number" "set_value"
         [("entity_id", VStr ("number." ++ grill_id self ++ "_cook_timer"));
          ("value", VInt (round (inject_Z time_set)))]
     | None => pass
     end) ;;
    (match curstep !! "probe_set_temp" with
     | Some probe_set_temp =>
       let name := re_sub_non_alnum (friendlyName gs) in
       async_call ImplementStep n "climate" "set_temperature"
         [("entity_id", VStr ("climate." ++ lower name ++ "_probe_p0"));
          ("temperature", VInt (round (inject_Z probe_set_temp)))]
     | None => pass
     end) ;;
    (match curstep !! "set_temp" with
     | Some set_temp =>
       async_call ImplementStep n "climate" "set_temperature"
         [("entity_id", VStr ("climate." ++ grill_id self ++ "_climate"));
          ("temperature", VInt (round (inject_Z set_temp)))]
     | None => pass
     end) ;;
    (match curstep !! "smoke" with
     | Some smoke =>
       if bool_decide (super_smoke_enabled gs = 1)
          && bool_decide (gs_smoke gs ≠ smoke)
          && bool_decide (gs_set gs <= 225) then
         if bool_decide (smoke = 1) then
           async_call ImplementStep n "switch" "turn_on"
             [("entity_id", VStr ("switch." ++ grill_id self ++ "_smoke"))]
         else
           async_call ImplementStep n "switch" "turn_off"
             [("entity_id", VStr ("switch." ++ grill_id self ++ "_smoke"))]
       else pass
     | None => pass
     end) ;;
    (match curstep !! "keepwarm" with
     | Some keepwarm =>
       if bool_decide (gs_keepwarm gs ≠ keepwarm) then
         if bool_decide (keepwarm = 1) then
           async_call ImplementStep n "switch" "turn_on"
             [("entity_id",
               VStr ("switch." ++ grill_id self ++ "_keepwarm"))]
         else
           async_call ImplementStep n "switch" "turn_off"
             [("entity_id",
               VStr ("switch." ++ grill_id self ++ "_keepwarm"))]
       else pass
     | None => pass
     end) ;;
    (match curstep !! "shutdown" with
     | Some shutdown =>
       if bool_decide (shutdown = 1) then
         async_call ImplementStep n "climate" "set_hvac_mode"
           [("entity_id", VStr ("climate." ++ grill_id self ++ "_climate"));
            ("hvac_mode", VStr "cool")] ;;
         set_num_value 0
       else pass
     | None => pass
     end)
  else pass.

(** Lines 96-97, 100-101, 110-111. *)
Definition revert_to_0 : M Z :=
  set_num_value 0 ;;
  self <- get_self ;;
  ret (num_value self).

(** The property [native_value]. *)
Definition native_value (grill_state : option Snapshot) : M Z :=
  match grill_state with
  | None => revert_to_0
  | Some gs =>
    self <- get_self ;;
    if bool_decide (num_value self > Z.of_nat (length (cook_cycle self)))
    then revert_to_0
    else if bool_decide (num_value self > 0)
            && bool_decide (gs_system_status gs ∈ not_cooking_modes)
    then revert_to_0
    else
      scan_for_next_step_advance gs ;;
      implement_next_step gs ;;
      self <- get_self ;;
      set_old_num_value (num_value self) ;;
      self <- get_self ;;
      (if bool_decide (num_value self > Z.of_nat (length (cook_cycle self)))
       then set_num_value 0 else pass) ;;
      self <- get_self ;;
      ret (num_value self)
  end.

End WithConsts.

(** [f"{n:02d}"]: decimal, padded with a zero to two characters. *)
Definition format_02d (n : Z) : string :=
  if bool_decide (0 <= n < 10) then "0" ++ pretty n else pretty n.

Section WithStr.
(** [str(step)], Python's rendering of a dict. *)
Context (str_step : gmap string Z -> string).

(** Lines 283-286: one [_stepNN] entry per step. *)
Fixpoint add_steps (steps : list (gmap string Z)) (intstep : Z)
    (custom_attributes : gmap string string) : gmap string string :=
  match steps with
  | [] => custom_attributes
  | step :: steps =>
    add_steps steps (intstep + 1)
      (<["_step" ++ format_02d intstep := str_step step]> custom_attributes)
  end.

(** [f"{n}: {self.cook_cycle[i]}"] *)
Definition describe_step (self : t) (n i : Z) : Result string :=
  match getitem (cook_cycle self) i with
  | Ok step => Ok (pretty n ++ ": " ++ str_step step)
  | Raise e => Raise e
  end.

(** The property [state_attributes] (lines 266-289). [prev_step], [curr_step]
    and [next_step] start as empty dicts, shown as ["{}"]. *)
Definition state_attributes (self : t) : Result (gmap string string) :=
  let n := num_value self in
  match (if bool_decide (n > 1) then describe_step self (n - 1) (n - 2)
         else Ok "{}") with
  | Raise e => Raise e
  | Ok prev_step =>
    match (if bool_decide (n > 0) then describe_step self n (n - 1)
           else Ok "{}") with
    | Raise e => Raise e
    | Ok curr_step =>
      match (if bool_decide (n < Z.of_nat (length (cook_cycle self)))
             then describe_step self (n + 1) n
             else Ok "{}") with
      | Raise e => Raise e
      | Ok next_step =>
        Ok (add_steps (cook_cycle self) 1
              (<["next_step" := next_step]>
                 (<["curr_step" := curr_step]>
                    (<["prev_step" := prev_step]> ∅))))
      end
    end
  end.

End WithStr.

(** [async_set_native_value]: the write to [num_value]. The callback it
    then awaits makes the platform read [native_value] again. *)
Definition async_set_native_value (value : Q) : M unit :=
  set_num_value (round value).

(** [set_custom_cook] *)
Definition set_custom_cook (steps : list (gmap string Z)) : M unit :=
  set_cook_cycle steps.

Definition native_min_value : Z := 0.
Definition native_max_value : Z := 999.

End CookCycNumberEntity.

(** ** [number.py]: class [TraegerNumberEntity] *)

Module TraegerNumberEntity.

(** The client methods [async_set_native_value] awaits. *)
Inductive ClientCall : Type :=
| set_timer_sec (grill_id : string) (seconds : Z)
| reset_timer (grill_id : string).

Definition native_min_value : Z := 0.
Definition native_max_value : Z := 1440.

Definition unsupported : Exn :=
  NotImplementedError "Set Timer not supported in current state.".

Section WithConsts.
Context `{GrillConsts}.

(** [async_set_native_value]: the outcome and the client calls made. *)
Definition async_set_native_value (grill_id : string)
    (grill_state : option Snapshot) (value : Q)
    : Result unit * list ClientCall :=
  match grill_state with
  | None => (Ok tt, [])
  | Some gs =>
    let state := gs_system_status gs in
    if bool_decide (GRILL_MODE_IGNITING <= state)
       && bool_decide (state <= GRILL_MODE_CUSTOM_COOK) then
      if Qle_bool 1 value then
        (Ok tt, [set_timer_sec grill_id (round value * 60)])
      else (Ok tt, [reset_timer grill_id])
    else (Raise unsupported, [])
  end.

End WithConsts.

End TraegerNumberEntity.

(** * Vocabulary of the verified properties and sample inputs *)

(** A snapshot of a connected grill, with the fields the examples vary. *)
Definition sample_snapshot (mode target current : Z) (u : UnitOfTemperature)
    : Snapshot := {|
  gs_connected := true;
  gs_system_status := mode;
  gs_set := target;
  gs_grill := current;
  gs_probe := 100;
  gs_smoke := 0;
  gs_keepwarm := 0;
  gs_cook_timer_complete := 0;
  gs_probe_alarm_fired := 0;
  gs_cook_timer_start := 0;
  gs_cook_timer_end := 0;
  grill_units := u;
  friendlyName := "Back Yard";
  max_grill_temp := 500;
  super_smoke_enabled := 1
|}.

(** A snapshot of a grill that lost its connection. *)
Definition offline_snapshot : Snapshot := {|
  gs_connected := false;
  gs_system_status := 99;
  gs_set := 225;
  gs_grill := 100;
  gs_probe := 100;
  gs_smoke := 0;
  gs_keepwarm := 0;
  gs_cook_timer_complete := 0;
  gs_probe_alarm_fired := 0;
  gs_cook_timer_start := 0;
  gs_cook_timer_end := 0;
  grill_units := FAHRENHEIT;
  friendlyName := "Back Yard";
  max_grill_temp := 500;
  super_smoke_enabled := 1
|}.

Module HeatingStateSpec.
Import HeatingState.

(** The swing of the at-temperature band. *)
Definition swing_of (u : UnitOfTemperature) : Z :=
  match u with CELSIUS => 11 | FAHRENHEIT => 20 end.

(** The labels the hysteresis chain tests for. *)
Definition known_labels : list string :=
  ["heating"; "preheating"; "cooling"; "at_temp"; "under_temp"; "over_temp"].

Definition at_temp_225 : t :=
  {| previous_target_temp := Some 225; previous_state := "at_temp" |}.

End HeatingStateSpec.

Module ProbeStateSpec.
Import ProbeState.

(** One update: the snapshot and the accessory the entity sees. *)
Record Tick : Type := {
  tick_state : Snapshot;
  tick_accessory : Accessory
}.

Definition target_of (k : Tick) : Z := acc_set_temp (tick_accessory k).

Section WithConsts.
Context `{GrillConsts}.

Definition evaluate (self : t) (k : Tick) : Result string * t :=
  state self (Some (tick_state k)) (Some (tick_accessory k)).

(** Consecutive evaluations of [state], each on the attributes the previous
    one left. *)
Fixpoint run (self : t) (ticks : list Tick) : list (Result string) * t :=
  match ticks with
  | [] => ([], self)
  | k :: ticks =>
    let '(r, self) := evaluate self k in
    let '(rs, self) := run self ticks in
    (r :: rs, self)
  end.

Definition alarm_is (b : bool) (k : Tick) : Prop :=
  exists v, acc_alarm_fired (tick_accessory k) = Some v /\ truthy v = b.

(** The target changed to a nonzero value, or the mode is outside the
    active-cooking set. *)
Definition releases (recorded_target : option Z) (k : Tick) : Prop :=
  (Some (target_of k) ≠ recorded_target /\ target_of k ≠ 0)
  \/ gs_system_status (tick_state k) ∉ active_modes.

(** No tick of the sequence releases the latch, and every accessory has an
    [alarm_fired] entry. *)
Fixpoint held (recorded_target : option Z) (ticks : list Tick) : Prop :=
  match ticks with
  | [] => True
  | k :: ticks =>
    is_Some (acc_alarm_fired (tick_accessory k))
    /\ ~ releases recorded_target k
    /\ held (Some (target_of k)) ticks
  end.

Definition latched_label (k : Tick) : string :=
  if bool_decide
       (acc_get_temp (tick_accessory k)
        >= fell_out_temp (grill_units (tick_state k)))
  then "fell_out" else "at_temp".

End WithConsts.

Definition sample_accessory (target probe : Z) (alarm : option Z)
    : Accessory :=
  {| acc_con := 1; acc_set_temp := target; acc_get_temp := probe;
     acc_alarm_fired := alarm |}.

Definition sample_tick (mode target probe : Z) (alarm : option Z) : Tick :=
  {| tick_state := sample_snapshot mode 225 225 FAHRENHEIT;
     tick_accessory := sample_accessory target probe alarm |}.

End ProbeStateSpec.

Module CookCycSpec.
Import CookCycNumberEntity.

Section WithConsts.
Context `{GrillConsts}.

(** Lines 95-111: the evaluations that leave through a guard clause: no
    snapshot, an index past the last step, or a positive index while the
    grill is not cooking. *)
Definition guard_exit (self : t) (grill_state : option Snapshot) : bool :=
  match grill_state with
  | None => true
  | Some gs =>
    bool_decide (num_value self > Z.of_nat (length (cook_cycle self)))
    || bool_decide (num_value self > 0)
       && bool_decide (gs_system_status gs ∈ not_cooking_modes)
  end.


(** The scan of lines 114-127 increments [num_value]. *)
Definition advances (self : t) (gs : Snapshot) : bool :=
  on_same_step self
  && match getitem (cook_cycle self) (num_value self - 1) with
     | Ok curstep => advance_due curstep gs
     | Raise _ => false
     end.

(** The states the entity can be in: [__init__], then any sequence of
    evaluations of [native_value], of [set_custom_cook] and of
    [async_set_native_value] with a value in the range the entity
    declares. *)
Inductive reachable : t -> Prop :=
| reachable_init (grill_id : string) : reachable (init grill_id)
| reachable_native_value (self : t) (grill_state : option Snapshot) :
    reachable self -> reachable (after (native_value grill_state self))
| reachable_set_custom_cook (self : t) (steps : list (gmap string Z)) :
    reachable self -> reachable (after (set_custom_cook steps self))
| reachable_set_native_value (self : t) (value : Q) :
    (inject_Z native_min_value <= value <= inject_Z native_max_value)%Q ->
    reachable self ->
    reachable (after (async_set_native_value value self)).

End WithConsts.

(** Lines 250-253: the value [native_value] returns at its end. *)
Definition final_clamp (self : t) : Z :=
  if bool_decide (num_value self > Z.of_nat (length (cook_cycle self)))
  then 0 else num_value self.

(** The call of the in-step change: the grill target raised by 5. *)
Definition raise_target (grill_id : string) (n : Z) (gs : Snapshot)
    : Issued :=
  {| issued_by := ScanAdvance; issued_step := n;
     issued_call :=
       {| domain := "climate"; service := "set_temperature";
          service_data :=
            [("entity_id", VStr ("climate." ++ grill_id ++ "_climate"));
             ("temperature", VInt (gs_set gs + 5))] |} |}.

(** The block that scheduled a call and the step it was read from. *)
Definition issued_from (b : Block) (n : Z) (e : Issued) : Prop :=
  issued_by e = b /\ issued_step e = n.

(** Everything but [num_value] is as before, and [num_value] is as before
    or [0]. *)
Definition kept_or_reset (self self' : t) : Prop :=
  grill_id self' = grill_id self
  /\ old_num_value self' = old_num_value self
  /\ cook_cycle self' = cook_cycle self
  /\ (num_value self' = num_value self \/ num_value self' = 0).

(** Everything but the contents of the steps is as before. *)
Definition kept_but_steps (self self' : t) : Prop :=
  grill_id self' = grill_id self
  /\ num_value self' = num_value self
  /\ old_num_value self' = old_num_value self
  /\ length (cook_cycle self') = length (cook_cycle self).

(** [m], run on [self], returns normally, relates the attributes by [Q] and
    schedules only calls satisfying [P]. *)
Definition runs (self : t) (Q : t -> t -> Prop) (P : Issued -> Prop)
    (m : M unit) : Prop :=
  exists self' log, m self = (Ok tt, self', log) /\ Q self self' /\ Forall P log.

(** A snapshot in custom-cook mode with the timer flag as given. *)
Definition cooking (timer_complete : Z) : Snapshot := {|
  gs_connected := true;
  gs_system_status := 7;
  gs_set := 225;
  gs_grill := 200;
  gs_probe := 100;
  gs_smoke := 0;
  gs_keepwarm := 0;
  gs_cook_timer_complete := timer_complete;
  gs_probe_alarm_fired := 0;
  gs_cook_timer_start := 0;
  gs_cook_timer_end := 0;
  grill_units := FAHRENHEIT;
  friendlyName := "Back Yard";
  max_grill_temp := 500;
  super_smoke_enabled := 1
|}.

(** On the only step of a one-step cycle, which waits for the timer. *)
Definition on_last_step : t :=
  {| grill_id := "grill"; num_value := 1; old_num_value := 1;
     cook_cycle := [{[ "use_timer" := 1 ]}] |}.

(** On the first of two steps; the second sets the timer. *)
Definition on_first_step : t :=
  {| grill_id := "grill"; num_value := 1; old_num_value := 1;
     cook_cycle := [{[ "use_timer" := 1 ]}; {[ "time_set" := 600 ]}] |}.

(** A two-step cycle loaded into a fresh entity, then the index set to 2. *)
Definition loaded_at_2 : t :=
  after (async_set_native_value 2
           (after (set_custom_cook
                     [{[ "use_timer" := 1 ]}; {[ "time_set" := 600 ]}]
                     (init "grill")))).

End CookCycSpec.

(** ** Vocabulary of the further properties *)

Module GrillStateSpec.

Section WithConsts.
Context `{GrillConsts}.

(** The mode codes with the labels [GrillState.state] gives them. *)
Definition mode_labels : list (Z * string) :=
  [(GRILL_MODE_COOL_DOWN, "cool_down");
   (GRILL_MODE_CUSTOM_COOK, "cook_custom");
   (GRILL_MODE_MANUAL_COOK, "cook_manual");
   (GRILL_MODE_PREHEATING, "preheating");
   (GRILL_MODE_IGNITING, "igniting");
   (GRILL_MODE_IDLE, "idle");
   (GRILL_MODE_SLEEPING, "sleeping");
   (GRILL_MODE_OFFLINE, "offline");
   (GRILL_MODE_SHUTDOWN, "shutdown")].

End WithConsts.

End GrillStateSpec.

Module CookCycMoreSpec.
Import CookCycNumberEntity CookCycSpec.

(** One logged call. *)
Definition logged (b : Block) (n : Z) (d s : string)
    (data : list (string * Value)) : Issued :=
  {| issued_by := b; issued_step := n;
     issued_call := {| domain := d; service := s; service_data := data |} |}.

(** The commands of the step-entry block (lines 156-246) for step [n] of
    grill [gid], in the order the block issues them. *)
Definition timer_call (gid : string) (n : Z) (curstep : gmap string Z)
    : list Issued :=
  match curstep !! "time_set" with
  | Some time_set =>
    [logged ImplementStep n "number" "set_value"
       [("entity_id", VStr ("number." ++ gid ++ "_cook_timer"));
        ("value", VInt time_set)]]
  | None => []
  end.

Definition probe_target_call (n : Z) (curstep : gmap string Z)
    (gs : Snapshot) : list Issued :=
  match curstep !! "probe_set_temp" with
  | Some probe_set_temp =>
    [logged ImplementStep n "climate" "set_temperature"
       [("entity_id",
         VStr ("climate." ++ lower (re_sub_non_alnum (friendlyName gs))
               ++ "_probe_p0"));
        ("temperature", VInt probe_set_temp)]]
  | None => []
  end.

Definition grill_target_call (gid : string) (n : Z)
    (curstep : gmap string Z) : list Issued :=
  match curstep !! "set_temp" with
  | Some set_temp =>
    [logged ImplementStep n "climate" "set_temperature"
       [("entity_id", VStr ("climate." ++ gid ++ "_climate"));
        ("temperature", VInt set_temp)]]
  | None => []
  end.

Definition smoke_call (gid : string) (n : Z) (curstep : gmap string Z)
    (gs : Snapshot) : list Issued :=
  match curstep !! "smoke" with
  | Some smoke =>
    if bool_decide (super_smoke_enabled gs = 1)
       && bool_decide (gs_smoke gs ≠ smoke)
       && bool_decide (gs_set gs <= 225)
    then [logged ImplementStep n "switch"
            (if bool_decide (smoke = 1) then "turn_on" else "turn_off")
            [("entity_id", VStr ("switch." ++ gid ++ "_smoke"))]]
    else []
  | None => []
  end.

Definition keepwarm_call (gid : string) (n : Z) (curstep : gmap string Z)
    (gs : Snapshot) : list Issued :=
  match curstep !! "keepwarm" with
  | Some keepwarm =>
    if bool_decide (gs_keepwarm gs ≠ keepwarm)
    then [logged ImplementStep n "switch"
            (if bool_decide (keepwarm = 1) then "turn_on" else "turn_off")
            [("entity_id", VStr ("switch." ++ gid ++ "_keepwarm"))]]
    else []
  | None => []
  end.

(** The step ends the cycle. *)
Definition shuts_down (curstep : gmap string Z) : bool :=
  bool_decide (curstep !! "shutdown" = Some 1).

Definition hvac_cool (gid : string) (n : Z) : Issued :=
  logged ImplementStep n "climate" "set_hvac_mode"
    [("entity_id", VStr ("climate." ++ gid ++ "_climate"));
     ("hvac_mode", VStr "cool")].

Definition entry_calls (gid : string) (n : Z) (curstep : gmap string Z)
    (gs : Snapshot) : list Issued :=
  (timer_call gid n curstep ++ probe_target_call n curstep gs
   ++ grill_target_call gid n curstep ++ smoke_call gid n curstep gs
   ++ keepwarm_call gid n curstep gs
   ++ (if shuts_down curstep then [hvac_cool gid n] else []))%list.

(** The step the index points at. *)
Definition current_step (self : t) : option (gmap string Z) :=
  cook_cycle self !! Z.to_nat (num_value self - 1).

(** The advance conditions of lines 116-127, in words of the step's
    entries. *)
Definition advance_rule (curstep : gmap string Z) (gs : Snapshot) : Prop :=
  match curstep !! "use_timer" with
  | Some use_timer => use_timer ≠ 0 /\ gs_cook_timer_complete gs ≠ 0
  | None =>
    gs_probe_alarm_fired gs ≠ 0
    \/ (exists v, curstep !! "act_temp_adv" = Some v /\ gs_grill gs > v)
    \/ (curstep !! "act_temp_adv" = None
        /\ exists v, curstep !! "probe_act_temp_adv" = Some v
             /\ gs_probe gs > v)
  end.

(** Entering step 2 of two, which sets the grill target and shuts down. *)
Definition entering_last : t :=
  {| grill_id := "grill"; num_value := 2; old_num_value := 1;
     cook_cycle :=
       [{[ "time_set" := 600 ]};
        <[ "set_temp" := 225 ]> {[ "shutdown" := 1 ]}] |}.

(** On step 1 of one, with a target ramp above the device limit. *)
Definition ramping : t :=
  {| grill_id := "grill"; num_value := 1; old_num_value := 1;
     cook_cycle :=
       [<[ "min_delta" := 150 ]> {[ "max_grill_delta_temp" := 600 ]}] |}.

(** Entering the only step, which turns super smoke on. *)
Definition entering_smoke : t :=
  {| grill_id := "grill"; num_value := 1; old_num_value := 0;
     cook_cycle := [{[ "smoke" := 1 ]}] |}.

End CookCycMoreSpec.

(** * Lemmas and theorems *)

Ltac by_compute := apply (bool_decide_unpack _); vm_compute; exact I.

Ltac elems := rewrite ?elem_of_cons, ?elem_of_nil in *.

Lemma sample_consts_distinct : @GrillModesDistinct sample_consts.
Proof. unfold GrillModesDistinct. by_compute. Qed.

(** ** [HeatingState] *)

Module HeatingStateFacts.
Import HeatingState HeatingStateSpec.

Section WithConsts.
Context `{GrillConsts}.

Lemma cook_mode_not_preheat `{!GrillModesDistinct} (mode : Z) :
  mode ∈ cook_modes -> mode ∉ preheat_modes.
Proof.
  unfold cook_modes, preheat_modes. intros Hc Hp.
  pose proof grill_modes_NoDup as Hnd.
  repeat (apply NoDup_cons in Hnd; destruct Hnd as [? Hnd]).
  elems. intuition congruence.
Qed.

(** In a cooking mode the label is the hysteresis result, unless the target
    changed or the chain fell through. *)
Lemma state_cook_mode `{!GrillModesDistinct} (self : t) (gs : Snapshot) :
  gs_system_status gs ∈ cook_modes ->
  (state self (Some gs)).1 =
    match hysteresis (previous_state self) (gs_grill gs) (gs_set gs)
            (gs_set gs - swing_of (grill_units gs))
            (gs_set gs + swing_of (grill_units gs)) with
    | Some label =>
      if bool_decide (Some (gs_set gs) ≠ previous_target_temp self)
      then on_target_changed (gs_grill gs) (gs_set gs) else label
    | None => on_target_changed (gs_grill gs) (gs_set gs)
    end.
Proof.
  intros Hc. pose proof (cook_mode_not_preheat _ Hc) as Hp.
  unfold state. cbn [fst].
  rewrite (bool_decide_eq_false_2 _ Hp), (bool_decide_eq_true_2 _ Hc).
  destruct (grill_units gs); reflexivity.
Qed.

Lemma hysteresis_unknown (prev : string) (c tg lo hi : Z) :
  prev ∉ known_labels -> hysteresis prev c tg lo hi = None.
Proof.
  unfold known_labels, hysteresis. intros Hn.
  repeat case_bool_decide; try reflexivity; exfalso; apply Hn.
  all: elems; tauto.
Qed.

Lemma hysteresis_at_temp (c tg lo hi : Z) :
  hysteresis "at_temp" c tg lo hi =
    Some (if bool_decide (c > hi) then "over_temp"
          else if bool_decide (c < lo) then "under_temp" else "at_temp").
Proof. reflexivity. Qed.

Lemma in_cook_modes (mode : Z) :
  mode = GRILL_MODE_CUSTOM_COOK \/ mode = GRILL_MODE_MANUAL_COOK ->
  mode ∈ cook_modes.
Proof. unfold cook_modes. elems. tauto. Qed.

(** C3. In a cooking mode, coming from [at_temp] with the target unchanged,
    the label is [over_temp] exactly when the grill is more than the swing
    above the target, [under_temp] exactly when it is more than the swing
    below, and [at_temp] otherwise; the swing is 11 in Celsius and 20 in
    Fahrenheit. With target 225 in Fahrenheit: 246 gives [over_temp], 204
    gives [under_temp], 225 gives [at_temp]. *)
Theorem at_temp_band `{!GrillModesDistinct} (self : t) (gs : Snapshot) :
  gs_system_status gs = GRILL_MODE_CUSTOM_COOK
  \/ gs_system_status gs = GRILL_MODE_MANUAL_COOK ->
  previous_state self = "at_temp" ->
  previous_target_temp self = Some (gs_set gs) ->
  let label := (state self (Some gs)).1 in
  let swing := swing_of (grill_units gs) in
  (label = "over_temp" <-> gs_grill gs > gs_set gs + swing)
  /\ (label = "under_temp" <-> gs_grill gs < gs_set gs - swing)
  /\ (label = "at_temp"
      <-> gs_set gs - swing <= gs_grill gs <= gs_set gs + swing)
  /\ (grill_units gs = FAHRENHEIT -> gs_set gs = 225 ->
      (gs_grill gs = 246 -> label = "over_temp")
      /\ (gs_grill gs = 204 -> label = "under_temp")
      /\ (gs_grill gs = 225 -> label = "at_temp")).
Proof.
  intros Hmode Hprev Htarget label swing. subst label swing.
  rewrite (state_cook_mode _ _ (in_cook_modes _ Hmode)).
  rewrite Hprev, Htarget, hysteresis_at_temp.
  rewrite bool_decide_eq_false_2 by (intros Hne; apply Hne; reflexivity).
  destruct (grill_units gs); cbn [swing_of];
    repeat case_bool_decide; (repeat split; try discriminate; try lia).
Qed.

(** C4. In a cooking mode, when the target differs from the recorded one or
    the previous label is none of the labels the chain knows, the label is
    [heating] if the grill is at or below the target and [cooling]
    otherwise, whatever the hysteresis chain computed. *)
Theorem target_change_overrides `{!GrillModesDistinct}
    (self : t) (gs : Snapshot) :
  gs_system_status gs = GRILL_MODE_CUSTOM_COOK
  \/ gs_system_status gs = GRILL_MODE_MANUAL_COOK ->
  previous_target_temp self ≠ Some (gs_set gs)
  \/ previous_state self ∉ known_labels ->
  let label := (state self (Some gs)).1 in
  (gs_grill gs <= gs_set gs -> label = "heating")
  /\ (gs_grill gs > gs_set gs -> label = "cooling").
Proof.
  intros Hmode Hforce label. subst label.
  rewrite (state_cook_mode _ _ (in_cook_modes _ Hmode)).
  assert (Hov : forall l, l = on_target_changed (gs_grill gs) (gs_set gs) ->
            (gs_grill gs <= gs_set gs -> l = "heating")
            /\ (gs_grill gs > gs_set gs -> l = "cooling")).
  { intros l ->. unfold on_target_changed.
    case_bool_decide; split; intros; (reflexivity || lia). }
  apply Hov. destruct Hforce as [Hchanged | Hunknown].
  - rewrite bool_decide_eq_true_2 by congruence.
    destruct (hysteresis _ _ _ _ _); reflexivity.
  - rewrite hysteresis_unknown by assumption. reflexivity.
Qed.

End WithConsts.

(** The band at target 225 in Fahrenheit, grill at 246. *)
Lemma at_temp_band_witness :
  (state (H := sample_consts) at_temp_225
     (Some (sample_snapshot 7 225 246 FAHRENHEIT))).1 = "over_temp".
Proof.
  apply (proj2 (proj1 (@at_temp_band sample_consts sample_consts_distinct
                         at_temp_225 (sample_snapshot 7 225 246 FAHRENHEIT)
                         (or_introl eq_refl) eq_refl eq_refl))).
  reflexivity.
Defined.

(** A fresh classifier in manual-cook mode, grill above the target. *)
Lemma target_change_overrides_witness :
  (state (H := sample_consts) init
     (Some (sample_snapshot 6 225 300 FAHRENHEIT))).1 = "cooling".
Proof.
  apply (@target_change_overrides sample_consts sample_consts_distinct
           init (sample_snapshot 6 225 300 FAHRENHEIT)).
  - right. reflexivity.
  - left. discriminate.
  - reflexivity.
Defined.

End HeatingStateFacts.

(** ** [ProbeState] *)

Module ProbeStateFacts.
Import ProbeState ProbeStateSpec.

Section WithConsts.
Context `{GrillConsts}.

Lemma evaluate_latched (self : t) (k : Tick) :
  probe_alarm
    (latch self (acc_alarm_fired (tick_accessory k))
       (bool_decide (Some (target_of k) ≠ previous_target_temp self))
       (target_of k) (gs_system_status (tick_state k))) = true ->
  evaluate self k =
    (Ok (latched_label k),
     {| previous_target_temp := Some (target_of k); probe_alarm := true |}).
Proof.
  unfold evaluate, state, latched_label, target_of.
  set (self1 := latch _ _ _ _ _). intros Hl.
  case_bool_decide; [|rewrite Hl]; cbn; unfold set_previous_target_temp;
    rewrite Hl; reflexivity.
Qed.

Lemma evaluate_unlatched (self : t) (k : Tick) :
  probe_alarm
    (latch self (acc_alarm_fired (tick_accessory k))
       (bool_decide (Some (target_of k) ≠ previous_target_temp self))
       (target_of k) (gs_system_status (tick_state k))) = false ->
  probe_alarm (evaluate self k).2 = false
  /\ (evaluate self k).1 ≠ Ok "at_temp".
Proof.
  unfold evaluate, state, target_of.
  set (self1 := latch _ _ _ _ _). intros Hl.
  case_bool_decide; [|rewrite Hl; destruct (_ && _); [case_bool_decide|]];
    cbn; rewrite ?Hl; split; (reflexivity || discriminate).
Qed.

Lemma latch_alarm_true (self : t) (v : Z) (changed : bool) (tg mode : Z) :
  truthy v = true ->
  probe_alarm (latch self (Some v) changed tg mode) = true.
Proof. unfold latch. intros ->. reflexivity. Qed.

Lemma latch_held (self : t) (k : Tick) :
  probe_alarm self = true ->
  is_Some (acc_alarm_fired (tick_accessory k)) ->
  ~ releases (previous_target_temp self) k ->
  probe_alarm
    (latch self (acc_alarm_fired (tick_accessory k))
       (bool_decide (Some (target_of k) ≠ previous_target_temp self))
       (target_of k) (gs_system_status (tick_state k))) = true.
Proof.
  intros Hset [v Hv] Hrel. rewrite Hv. unfold latch.
  destruct (truthy v); [reflexivity|].
  destruct (_ || _) eqn:Hclear; [|assumption].
  exfalso. apply Hrel. unfold releases.
  apply orb_true_iff in Hclear as [Hc | Hc].
  - apply andb_true_iff in Hc as [Hc1 Hc2].
    apply bool_decide_eq_true_1 in Hc1, Hc2. left. split; assumption.
  - apply bool_decide_eq_true_1 in Hc. right. assumption.
Qed.

Lemma latch_released (self : t) (k : Tick) :
  alarm_is false k ->
  releases (previous_target_temp self) k ->
  probe_alarm
    (latch self (acc_alarm_fired (tick_accessory k))
       (bool_decide (Some (target_of k) ≠ previous_target_temp self))
       (target_of k) (gs_system_status (tick_state k))) = false.
Proof.
  intros (v & Hv & Hfalse) Hrel. rewrite Hv. unfold latch. rewrite Hfalse.
  destruct Hrel as [[Hc Hnz] | Hmode].
  - rewrite (bool_decide_eq_true_2 _ Hc), (bool_decide_eq_true_2 _ Hnz).
    reflexivity.
  - rewrite (bool_decide_eq_true_2 _ Hmode), orb_true_r. reflexivity.
Qed.

(** While nothing releases it, a set latch stays set and decides the
    label. *)
Lemma run_held (ticks : list Tick) (self : t) :
  probe_alarm self = true ->
  held (previous_target_temp self) ticks ->
  (run self ticks).1 = map (fun k => Ok (latched_label k)) ticks
  /\ probe_alarm (run self ticks).2 = true.
Proof.
  revert self. induction ticks as [|k ticks IH]; intros self Hset Hheld.
  - split; [reflexivity | assumption].
  - destruct Hheld as (Hfield & Hrel & Hheld). cbn [run].
    rewrite (evaluate_latched self k (latch_held self k Hset Hfield Hrel)).
    specialize (IH {| previous_target_temp := Some (target_of k);
                      probe_alarm := true |} eq_refl Hheld).
    destruct (run _ ticks) as [rs self']. cbn in *.
    destruct IH as [-> ->]. split; reflexivity.
Qed.

(** C5. A probe temperature at or above the fell-out threshold (102 in
    Celsius, 215 in Fahrenheit) gives [fell_out], whatever the latch, the
    target temperature and the grill mode are. *)
Theorem fell_out_first :
  fell_out_temp CELSIUS = 102 /\ fell_out_temp FAHRENHEIT = 215
  /\ forall (self : t) (gs : Snapshot) (acc : Accessory),
       acc_get_temp acc >= fell_out_temp (grill_units gs) ->
       (state self (Some gs) (Some acc)).1 = Ok "fell_out".
Proof.
  split; [reflexivity|]. split; [reflexivity|].
  intros self gs acc Hhot. unfold state.
  rewrite (bool_decide_eq_true_2 _ Hhot). reflexivity.
Qed.

(** C6. Over consecutive evaluations of [state], each with a snapshot and
    an accessory: once an evaluation sees [alarm_fired] true the latch is
    set, and every following evaluation returns [at_temp] ([fell_out] at or
    above the fell-out threshold), also when [alarm_fired] is false there, as
    long as no evaluation sees the target change to a nonzero value or a mode
    outside the active-cooking set. An evaluation that sees one of these
    with [alarm_fired] false, or an accessory without [alarm_fired], clears
    the latch and does not return [at_temp]. *)
Theorem alarm_latch :
  (forall (self : t) (k0 : Tick) (ticks : list Tick),
     alarm_is true k0 ->
     held (Some (target_of k0)) ticks ->
     probe_alarm (evaluate self k0).2 = true
     /\ (run self (k0 :: ticks)).1
        = map (fun k => Ok (latched_label k)) (k0 :: ticks)
     /\ probe_alarm (run self (k0 :: ticks)).2 = true)
  /\ (forall (self : t) (k : Tick),
        alarm_is false k ->
        releases (previous_target_temp self) k ->
        probe_alarm (evaluate self k).2 = false
        /\ (evaluate self k).1 ≠ Ok "at_temp")
  /\ (forall (self : t) (k : Tick),
        acc_alarm_fired (tick_accessory k) = None ->
        probe_alarm (evaluate self k).2 = false
        /\ (evaluate self k).1 ≠ Ok "at_temp").
Proof.
  split; [|split].
  - intros self k0 ticks (v & Hv & Htrue) Hheld.
    assert (Hk0 := evaluate_latched self k0).
    rewrite Hv in Hk0. specialize (Hk0 (latch_alarm_true _ _ _ _ _ Htrue)).
    cbn [run]. rewrite Hk0.
    destruct (run_held ticks {| previous_target_temp := Some (target_of k0);
                                probe_alarm := true |} eq_refl Hheld)
      as [Hlabels Hlatch].
    destruct (run _ ticks) as [rs self']. cbn in *.
    rewrite Hlabels, Hlatch. repeat split.
  - intros self k Hfalse Hrel.
    apply evaluate_unlatched, latch_released; assumption.
  - intros self k Hnone. apply evaluate_unlatched. rewrite Hnone. reflexivity.
Qed.

(** With the latch clear, the label does not depend on the recorded
    target. *)
Lemma state_unlatched_label (self1 self2 : t) (gs : option Snapshot)
    (acc : option Accessory) :
  probe_alarm self1 = false -> probe_alarm self2 = false ->
  (state self1 gs acc).1 = (state self2 gs acc).1.
Proof.
  intros H1 H2. unfold state. destruct acc as [acc|]; [|reflexivity].
  destruct gs as [gs|]; [|reflexivity].
  assert (Hl : forall self c, probe_alarm self = false ->
            probe_alarm (latch self (acc_alarm_fired acc) c (acc_set_temp acc)
                           (gs_system_status gs))
            = match acc_alarm_fired acc with
              | Some v => truthy v | None => false end).
  { intros self c Hs. unfold latch. destruct (acc_alarm_fired acc) as [v|];
      [|reflexivity]. destruct (truthy v); [reflexivity|].
    destruct (_ || _); [reflexivity | assumption]. }
  case_bool_decide; [reflexivity|].
  rewrite (Hl self1 _ H1), (Hl self2 _ H2).
  destruct (match acc_alarm_fired acc with Some v => truthy v | None => false end);
    [reflexivity|].
  destruct (_ && _); [case_bool_decide|]; reflexivity.
Qed.

End WithConsts.

(** A probe at 220 in Fahrenheit. *)
Lemma fell_out_first_witness :
  (state (H := sample_consts) init
     (Some (sample_snapshot 7 225 225 FAHRENHEIT))
     (Some (sample_accessory 160 220 None))).1 = Ok "fell_out".
Proof.
  apply (proj2 (proj2 (@fell_out_first sample_consts))). discriminate.
Defined.

(** The alarm fires, then stops; then the target changes to 0: the label
    stays [at_temp]. *)
Lemma alarm_latch_witness :
  (run (H := sample_consts) init
     [sample_tick 7 160 161 (Some 1); sample_tick 7 160 150 (Some 0);
      sample_tick 7 0 150 (Some 0)]).1
  = [Ok "at_temp"; Ok "at_temp"; Ok "at_temp"].
Proof.
  refine (proj1 (proj2 (proj1 (@alarm_latch sample_consts) init
            (sample_tick 7 160 161 (Some 1))
            [sample_tick 7 160 150 (Some 0); sample_tick 7 0 150 (Some 0)]
            _ _))).
  - exists 1. split; reflexivity.
  - cbn. unfold releases, target_of. cbn.
    repeat split; try (eexists; reflexivity).
    + intros [[Hc _] | Hm]; [apply Hc; reflexivity | apply Hm; by_compute].
    + intros [[_ Hz] | Hm]; [apply Hz; reflexivity | apply Hm; by_compute].
Defined.

End ProbeStateFacts.

(** ** Availability and the retained classifier state *)

Module AvailabilityFacts.

(** What [ProbeState.available] does when it reports false, and what the
    inherited [available] of [HeatingState] does. *)
Lemma probe_available_false (self : ProbeState.t) (gs : option Snapshot)
    (acc : option Accessory) :
  (ProbeState.available self gs acc).1 = false ->
  (ProbeState.available self gs acc).2 = ProbeState.set_probe_alarm false self.
Proof.
  unfold ProbeState.available.
  destruct gs as [gs|], acc as [acc|]; try reflexivity.
  destruct (gs_connected gs); [|reflexivity].
  destruct (truthy (acc_con acc)); [discriminate | reflexivity].
Qed.

(** C9, as the code has it. When [ProbeState.available] reports false the
    alarm latch is cleared, and the next probe label is the one a fresh
    classifier computes. The [available] that [HeatingState] inherits writes
    no attribute: previous label and previous target are kept. *)
Theorem unavailable_clears_probe_latch `{GrillConsts} :
  (forall (self : ProbeState.t) (gs : option Snapshot)
          (acc : option Accessory),
     (ProbeState.available self gs acc).1 = false ->
     ProbeState.probe_alarm (ProbeState.available self gs acc).2 = false
     /\ forall (gs' : option Snapshot) (acc' : option Accessory),
          (ProbeState.state (ProbeState.available self gs acc).2 gs' acc').1
          = (ProbeState.state ProbeState.init gs' acc').1)
  /\ (forall (self : HeatingState.t) (gs : option Snapshot),
        (HeatingState.available self gs).2 = self).
Proof.
  split.
  - intros self gs acc Hfalse. rewrite (probe_available_false _ _ _ Hfalse).
    split; [reflexivity|]. intros gs' acc'.
    apply ProbeStateFacts.state_unlatched_label; reflexivity.
  - intros self [gs|]; reflexivity.
Qed.

(** A set latch and a grill that lost its connection. *)
Lemma unavailable_clears_probe_latch_witness :
  ProbeState.probe_alarm
    (ProbeState.available
       {| ProbeState.previous_target_temp := Some 160;
          ProbeState.probe_alarm := true |}
       (Some offline_snapshot) None).2 = false.
Proof.
  apply (proj1 (@unavailable_clears_probe_latch sample_consts)). reflexivity.
Defined.

(** C9, as the claim states it, fails for the heating classifier: an
    [at_temp] label with target 225 survives both an absent and a
    disconnected snapshot, and then yields [under_temp] where a fresh
    classifier yields [heating]. *)
Lemma heating_state_survives_unavailable :
  let self := HeatingStateSpec.at_temp_225 in
  let back := sample_snapshot 7 225 100 FAHRENHEIT in
  HeatingState.available self None = (false, self)
  /\ HeatingState.available self (Some offline_snapshot) = (false, self)
  /\ HeatingState.state (H := sample_consts) self None = ("idle", self)
  /\ (HeatingState.state (H := sample_consts) self (Some back)).1
     = "under_temp"
  /\ (HeatingState.state (H := sample_consts) HeatingState.init
        (Some back)).1 = "heating".
Proof. repeat split. Qed.

End AvailabilityFacts.

(** ** [TraegerNumberEntity] *)

Module TraegerNumberEntityFacts.
Import TraegerNumberEntity.

Section WithConsts.
Context `{GrillConsts}.

(** C8. Setting the timer raises the unsupported-in-current-state error
    exactly when there is a grill mode and it lies outside the range from
    igniting through custom cook. Inside the range a value of at least 1
    sets the timer to [round(value) * 60] seconds and a smaller value resets
    it, and nothing is raised. *)
Theorem set_timer_outcome (grill_id : string) (grill_state : option Snapshot)
    (value : Q) :
  let out := async_set_native_value grill_id grill_state value in
  (out.1 = Raise unsupported
   <-> exists gs, grill_state = Some gs
         /\ ~ (GRILL_MODE_IGNITING <= gs_system_status gs
               <= GRILL_MODE_CUSTOM_COOK))
  /\ (forall gs, grill_state = Some gs ->
        GRILL_MODE_IGNITING <= gs_system_status gs
          <= GRILL_MODE_CUSTOM_COOK ->
        ((1 <= value)%Q ->
           out = (Ok tt, [set_timer_sec grill_id (round value * 60)]))
        /\ ((value < 1)%Q -> out = (Ok tt, [reset_timer grill_id]))).
Proof.
  intros out. subst out. unfold async_set_native_value. split.
  - destruct grill_state as [gs|].
    + repeat case_bool_decide; cbn [andb].
      * destruct (Qle_bool 1 value); cbn; split;
          [discriminate | intros (gs' & [= <-] & Hout); lia
          | discriminate | intros (gs' & [= <-] & Hout); lia].
      * split; [|reflexivity]. intros _. exists gs. split; [reflexivity|lia].
      * split; [|reflexivity]. intros _. exists gs. split; [reflexivity|lia].
      * split; [|reflexivity]. intros _. exists gs. split; [reflexivity|lia].
    + cbn. split; [discriminate | intros (gs & [=] & _)].
  - intros gs -> [Hlo Hhi].
    rewrite (bool_decide_eq_true_2 _ Hlo), (bool_decide_eq_true_2 _ Hhi).
    cbn [andb]. split.
    + intros Hge. apply Qle_bool_iff in Hge. rewrite Hge. reflexivity.
    + intros Hlt. destruct (Qle_bool 1 value) eqn:Hb; [|reflexivity].
      apply Qle_bool_iff in Hb. exfalso. exact (Qlt_not_le _ _ Hlt Hb).
Qed.

End WithConsts.

(** Manual-cook mode and 30.5 minutes: the timer is set to 1800 seconds
    (30.5 rounds to the even 30). *)
Lemma set_timer_outcome_witness :
  async_set_native_value (H := sample_consts) "grill"
    (Some (sample_snapshot 6 225 225 FAHRENHEIT)) (61 # 2)
  = (Ok tt, [set_timer_sec "grill" 1800]).
Proof.
  apply (proj2 (@set_timer_outcome sample_consts "grill"
                  (Some (sample_snapshot 6 225 225 FAHRENHEIT)) (61 # 2))
           _ eq_refl).
  - cbn. lia.
  - discriminate.
Defined.

End TraegerNumberEntityFacts.

(** ** [CookCycNumberEntity] *)

Module CookCycFacts.
Import CookCycNumberEntity CookCycSpec.
Local Open Scope py_scope.

(** *** Builtins *)

Lemma round_inject_Z (z : Z) : round (inject_Z z) = z.
Proof.
  unfold round. rewrite Qfloor_Z.
  replace (inject_Z z - inject_Z z ?= 1 # 2)%Q with Lt; [reflexivity|].
  symmetry. unfold Qcompare. cbn. apply Z.compare_lt_iff. lia.
Qed.

Lemma round_nonneg (x : Q) : (0 <= x)%Q -> 0 <= round x.
Proof.
  intros Hx. assert (0 <= Qfloor x).
  { change 0 with (Qfloor 0). apply Qfloor_resp_le. exact Hx. }
  unfold round. destruct (_ ?= _)%Q; [destruct (Z.even _)| |]; lia.
Qed.

Lemma getitem_in_range {A : Type} (l : list A) (i : Z) :
  0 <= i < Z.of_nat (length l) ->
  exists x, getitem l i = Ok x /\ l !! Z.to_nat i = Some x.
Proof.
  intros Hi. unfold getitem.
  rewrite (bool_decide_eq_false_2 (i < 0)) by lia.
  rewrite (bool_decide_eq_true_2 (0 <= i < _)) by lia.
  destruct (lookup_lt_is_Some_2 l (Z.to_nat i)) as [x Hx]; [lia|].
  rewrite Hx. exists x. split; reflexivity.
Qed.

Lemma getitem_past_end {A : Type} (l : list A) (i : Z) :
  Z.of_nat (length l) <= i -> getitem l i = Raise IndexError.
Proof.
  intros Hi. unfold getitem.
  rewrite (bool_decide_eq_false_2 (i < 0)) by lia.
  rewrite (bool_decide_eq_false_2 (0 <= i < _)) by lia. reflexivity.
Qed.

(** *** The method monad *)

Lemma bind_get_self {B : Type} (k : t -> M B) (self : t) :
  bind get_self k self = k self self.
Proof. unfold bind, get_self. destruct (k self self) as [[r s] l]. reflexivity. Qed.

Lemma bind_lift_Ok {A B : Type} (a : A) (k : A -> M B) (self : t) :
  bind (lift (Ok a)) k self = k a self.
Proof. unfold bind, lift. destruct (k a self) as [[r s] l]. reflexivity. Qed.

Lemma bind_pass {B : Type} (k : unit -> M B) (self : t) :
  bind pass k self = k tt self.
Proof. unfold bind, pass, ret. destruct (k tt self) as [[r s] l]. reflexivity. Qed.

Lemma bind_set_num_value {B : Type} (v : Z) (k : unit -> M B) (self : t) :
  bind (set_num_value v) k self = k tt (with_num_value v self).
Proof.
  unfold bind, set_num_value.
  destruct (k tt (with_num_value v self)) as [[r s] l]. reflexivity.
Qed.

Lemma bind_runs {B : Type} (m : M unit) (k : unit -> M B) (self self1 : t)
    (log1 : list Issued) :
  m self = (Ok tt, self1, log1) ->
  bind m k self =
    (result (k tt self1), after (k tt self1),
     (log1 ++ issued (k tt self1))%list).
Proof.
  intros Hm. unfold bind. rewrite Hm.
  destruct (k tt self1) as [[r s] l]. reflexivity.
Qed.

Lemma bind_outcome {A B : Type} (m : M A) (k : A -> M B) (self self1 : t)
    (r : Result A) (log1 : list Issued) :
  m self = (r, self1, log1) ->
  bind m k self =
    match r with
    | Ok a =>
      (result (k a self1), after (k a self1),
       (log1 ++ issued (k a self1))%list)
    | Raise e => (Raise e, self1, log1)
    end.
Proof.
  intros Hm. unfold bind. rewrite Hm. destruct r as [a|e]; [|reflexivity].
  destruct (k a self1) as [[r s] l]. reflexivity.
Qed.

Lemma kept_or_reset_preorder : PreOrder kept_or_reset.
Proof.
  split.
  - intros self. unfold kept_or_reset. tauto.
  - intros a b c (Hg1 & Ho1 & Hc1 & Hn1) (Hg2 & Ho2 & Hc2 & Hn2).
    unfold kept_or_reset. rewrite Hg2, Ho2, Hc2. repeat split; try assumption.
    destruct Hn2 as [-> | ->]; [assumption | right; reflexivity].
Qed.

Lemma kept_but_steps_preorder : PreOrder kept_but_steps.
Proof.
  split.
  - intros self. unfold kept_but_steps. tauto.
  - intros a b c (Hg1 & Hn1 & Ho1 & Hc1) (Hg2 & Hn2 & Ho2 & Hc2).
    unfold kept_but_steps. rewrite Hg2, Hn2, Ho2, Hc2. tauto.
Qed.

#[local] Existing Instance kept_or_reset_preorder.
#[local] Existing Instance kept_but_steps_preorder.

Section Runs.
Context (Q : t -> t -> Prop) `{!PreOrder Q} (P : Issued -> Prop).

Lemma runs_pass (self : t) : runs self Q P pass.
Proof. exists self, []. split; [reflexivity|]. split; [reflexivity | constructor]. Qed.

Lemma runs_async_call (self : t) (b : Block) (n : Z) (d s : string)
    (data : list (string * Value)) :
  P {| issued_by := b; issued_step := n;
       issued_call := {| domain := d; service := s; service_data := data |} |} ->
  runs self Q P (async_call b n d s data).
Proof.
  intros HP. eexists self, [_]. split; [reflexivity|].
  split; [reflexivity | repeat constructor; exact HP].
Qed.

Lemma runs_bind (self : t) (m : M unit) (k : unit -> M unit) :
  runs self Q P m ->
  (forall self1, Q self self1 -> runs self1 Q P (k tt)) ->
  runs self Q P (bind m k).
Proof.
  intros (self1 & log1 & Hm & HQ1 & HP1) Hk.
  destruct (Hk self1 HQ1) as (self2 & log2 & Hk2 & HQ2 & HP2).
  exists self2, (log1 ++ log2)%list. rewrite (bind_runs _ _ _ _ _ Hm), Hk2.
  split; [reflexivity|]. split; [etransitivity; eassumption|].
  apply Forall_app. split; assumption.
Qed.

Lemma runs_get_self (self : t) (k : t -> M unit) :
  runs self Q P (k self) -> runs self Q P (bind get_self k).
Proof. unfold runs. rewrite bind_get_self. trivial. Qed.

End Runs.

Section WithConsts.
Context `{GrillConsts}.

(** *** The in-step change and the scan *)

Lemma in_step_change_runs (n : Z) (curstep : gmap string Z) (gs : Snapshot)
    (self : t) :
  exists self' log,
    in_step_change n curstep gs self = (Ok tt, self', log)
    /\ kept_but_steps self self'
    /\ (log = [] \/ log = [raise_target (grill_id self) n gs]).
Proof.
  assert (Hself : kept_but_steps self self) by reflexivity.
  unfold in_step_change. rewrite bind_get_self.
  destruct (curstep !! "min_delta") as [min_delta|];
    [|exists self, []; repeat split; try apply Hself; left; reflexivity].
  destruct (curstep !! "max_grill_delta_temp") as [max_delta|];
    [|exists self, []; repeat split; try apply Hself; left; reflexivity].
  set (over := bool_decide (max_delta > max_grill_temp gs)).
  assert (Hfirst : exists self1,
            (if over
             then setitem_curstep (n - 1) curstep "max_grill_delta_temp"
                    (max_grill_temp gs)
             else pass) self = (Ok tt, self1, [])
            /\ kept_but_steps self self1).
  { destruct over.
    - eexists. unfold setitem_curstep. rewrite bind_get_self.
      split; [reflexivity|]. unfold kept_but_steps. cbn.
      rewrite length_insert. tauto.
    - exists self. split; [reflexivity | exact Hself]. }
  destruct Hfirst as (self1 & Hfirst & Hkept1).
  rewrite (bind_runs _ _ _ _ _ Hfirst). rewrite round_inject_Z.
  exists self1. repeat case_bool_decide; cbn; eexists;
    (split; [reflexivity|]); (split; [exact Hkept1|]);
    first [left; reflexivity | right; reflexivity].
Qed.

(** The scan returns normally whenever the index is within the list; it
    moves the index by one exactly when the advance condition holds. *)
Lemma scan_spec (gs : Snapshot) (self : t) :
  num_value self <= Z.of_nat (length (cook_cycle self)) ->
  exists self1 log1,
    scan_for_next_step_advance gs self = (Ok tt, self1, log1)
    /\ grill_id self1 = grill_id self
    /\ old_num_value self1 = old_num_value self
    /\ length (cook_cycle self1) = length (cook_cycle self)
    /\ num_value self1
       = (if advances self gs then num_value self + 1 else num_value self)
    /\ (log1 = [] \/ log1 = [raise_target (grill_id self) (num_value self) gs])
    /\ (on_same_step self = false -> self1 = self /\ log1 = []).
Proof.
  intros Hlen. unfold scan_for_next_step_advance, advances.
  rewrite bind_get_self. destruct (on_same_step self) eqn:Hsame.
  - assert (Hpos : num_value self > 0).
    { unfold on_same_step in Hsame. apply andb_true_iff in Hsame as [Hp _].
      exact (bool_decide_eq_true_1 _ Hp). }
    destruct (getitem_in_range (cook_cycle self) (num_value self - 1))
      as (curstep & Hget & _); [lia|].
    rewrite Hget, bind_lift_Ok. cbn [andb].
    destruct (advance_due curstep gs).
    + rewrite bind_set_num_value.
      destruct (in_step_change_runs (num_value self) curstep gs
                  (with_num_value (num_value self + 1) self))
        as (self1 & log1 & -> & (Hg & Hn & Ho & Hc) & Hlog).
      exists self1, log1. cbn in *. repeat split; try assumption; discriminate.
    + rewrite bind_pass.
      destruct (in_step_change_runs (num_value self) curstep gs self)
        as (self1 & log1 & -> & (Hg & Hn & Ho & Hc) & Hlog).
      exists self1, log1. repeat split; try assumption; discriminate.
  - exists self, []. cbn. repeat split; try reflexivity. left. reflexivity.
Qed.

(** *** Implementing a step *)

Lemma implement_skipped (gs : Snapshot) (self : t) :
  on_new_step self = false -> implement_next_step gs self = (Ok tt, self, []).
Proof.
  intros Hnew. unfold implement_next_step.
  rewrite bind_get_self, Hnew. reflexivity.
Qed.

(** Arriving past the last step: the step is read out of range. *)
Lemma implement_past_end (gs : Snapshot) (self : t) :
  on_new_step self = true ->
  num_value self > Z.of_nat (length (cook_cycle self)) ->
  implement_next_step gs self = (Raise IndexError, self, []).
Proof.
  intros Hnew Hpast. unfold implement_next_step.
  rewrite bind_get_self, Hnew, getitem_past_end by lia. reflexivity.
Qed.

Lemma runs_revert (self : t) (P : Issued -> Prop) :
  runs self kept_or_reset P (set_num_value 0).
Proof.
  eexists _, []. split; [reflexivity|]. split; [|constructor].
  unfold kept_or_reset. cbn. tauto.
Qed.

(** Arriving on a step of the list: the block returns normally, schedules
    only calls of that step and leaves the index or resets it. *)
Lemma implement_runs (gs : Snapshot) (self : t) :
  on_new_step self = true ->
  num_value self <= Z.of_nat (length (cook_cycle self)) ->
  runs self kept_or_reset (issued_from ImplementStep (num_value self))
    (implement_next_step gs).
Proof.
  intros Hnew Hlen.
  assert (Hpos : num_value self > 0).
  { unfold on_new_step in Hnew. apply andb_true_iff in Hnew as [Hp _].
    exact (bool_decide_eq_true_1 _ Hp). }
  unfold implement_next_step. apply runs_get_self. rewrite Hnew.
  destruct (getitem_in_range (cook_cycle self) (num_value self - 1))
    as (curstep & Hget & _); [lia|].
  rewrite Hget. unfold runs. rewrite bind_lift_Ok. fold (runs self).
  repeat (apply runs_bind; [apply _ | | intros ? _]).
  all: repeat match goal with
         | |- runs _ _ _ (match ?o with Some _ => _ | None => _ end) =>
           destruct o
         | |- runs _ _ _ (if ?b then _ else _) => destruct b
         | |- runs _ _ _ (bind _ _) =>
           apply runs_bind; [apply _ | | intros ? _]
         end.
  all: first [ apply runs_pass; apply _
             | apply runs_revert
             | apply runs_async_call; [apply _ | split; reflexivity] ].
Qed.

(** *** The whole evaluation *)

Lemma guard_exit_false (self : t) (gs : Snapshot) :
  guard_exit self (Some gs) = false ->
  num_value self <= Z.of_nat (length (cook_cycle self))
  /\ bool_decide (num_value self > Z.of_nat (length (cook_cycle self))) = false
  /\ bool_decide (num_value self > 0)
     && bool_decide (gs_system_status gs ∈ not_cooking_modes) = false.
Proof.
  unfold guard_exit. intros Hg. apply orb_false_iff in Hg as [Hpast Hmode].
  split; [|split; assumption].
  apply bool_decide_eq_false_1 in Hpast. lia.
Qed.

(** An evaluation that leaves through a guard clause. *)
Lemma native_value_guard (self : t) (grill_state : option Snapshot) :
  guard_exit self grill_state = true ->
  native_value grill_state self = (Ok 0, with_num_value 0 self, []).
Proof.
  unfold guard_exit, native_value. destruct grill_state as [gs|];
    [|reflexivity].
  intros Hg. rewrite bind_get_self.
  destruct (bool_decide (num_value self > _)); [reflexivity|].
  cbn [orb] in Hg. rewrite Hg. reflexivity.
Qed.

(** An evaluation that passes the guards: the scan, then the step entry,
    then lines 248-253. *)
Lemma native_value_body (gs : Snapshot) (self self1 : t)
    (log1 : list Issued) :
  guard_exit self (Some gs) = false ->
  scan_for_next_step_advance gs self = (Ok tt, self1, log1) ->
  native_value (Some gs) self =
    match implement_next_step gs self1 with
    | (Ok _, self2, log2) =>
      (Ok (final_clamp self2),
       with_num_value (final_clamp self2)
         (with_old_num_value (num_value self2) self2),
       (log1 ++ log2)%list)
    | (Raise e, self2, log2) => (Raise e, self2, (log1 ++ log2)%list)
    end.
Proof.
  intros Hg Hscan. destruct (guard_exit_false _ _ Hg) as (_ & Hpast & Hmode).
  unfold native_value. rewrite bind_get_self, Hpast, Hmode.
  rewrite (bind_runs _ _ _ _ _ Hscan).
  destruct (implement_next_step gs self1) as [[r self2] log2] eqn:Himpl.
  rewrite (bind_outcome _ _ _ _ _ _ Himpl).
  destruct r as [[]|e]; [|reflexivity].
  unfold result, after, issued, final_clamp, bind. cbn.
  destruct (bool_decide (num_value self2 > _)); cbn;
    rewrite app_nil_r; reflexivity.
Qed.

(** The three ways an evaluation that passes the guards can end. *)
Lemma native_value_spec (gs : Snapshot) (self : t) :
  guard_exit self (Some gs) = false ->
  exists self1 log1,
    grill_id self1 = grill_id self
    /\ old_num_value self1 = old_num_value self
    /\ length (cook_cycle self1) = length (cook_cycle self)
    /\ num_value self1
       = (if advances self gs then num_value self + 1 else num_value self)
    /\ (log1 = [] \/ log1 = [raise_target (grill_id self) (num_value self) gs])
    /\ ((on_new_step self1 = false
         /\ native_value (Some gs) self
            = (Ok (final_clamp self1),
               with_num_value (final_clamp self1)
                 (with_old_num_value (num_value self1) self1),
               log1))
        \/ (on_new_step self1 = true
            /\ num_value self1 > Z.of_nat (length (cook_cycle self1))
            /\ native_value (Some gs) self = (Raise IndexError, self1, log1))
        \/ (on_new_step self1 = true
            /\ num_value self1 <= Z.of_nat (length (cook_cycle self1))
            /\ exists self2 log2,
                 kept_or_reset self1 self2
                 /\ Forall (issued_from ImplementStep (num_value self1)) log2
                 /\ native_value (Some gs) self
                    = (Ok (final_clamp self2),
                       with_num_value (final_clamp self2)
                         (with_old_num_value (num_value self2) self2),
                       (log1 ++ log2)%list))).
Proof.
  intros Hg. destruct (guard_exit_false _ _ Hg) as (Hlen & _).
  destruct (scan_spec gs self Hlen)
    as (self1 & log1 & Hscan & Hgid & Hold & Hcc & Hnum & Hlog & _).
  exists self1, log1. repeat (split; [assumption|]).
  rewrite (native_value_body gs self self1 log1 Hg Hscan).
  destruct (on_new_step self1) eqn:Hnew.
  - destruct (Z_le_gt_dec (num_value self1)
                (Z.of_nat (length (cook_cycle self1)))) as [Hin | Hpast].
    + right. right. repeat (split; [assumption || reflexivity|]).
      destruct (implement_runs gs self1 Hnew Hin)
        as (self2 & log2 & -> & Hkept & Hfrom).
      exists self2, log2. split; [exact Hkept|]. split; [exact Hfrom|].
      reflexivity.
    + right. left. rewrite (implement_past_end gs self1 Hnew Hpast).
      rewrite app_nil_r. repeat split. assumption.
  - left. rewrite (implement_skipped gs self1 Hnew), app_nil_r.
    split; reflexivity.
Qed.

Lemma on_same_step_true (self : t) :
  on_same_step self = true ->
  num_value self > 0 /\ num_value self = old_num_value self.
Proof.
  unfold on_same_step. intros Hs. apply andb_true_iff in Hs as [Hp He].
  split; [exact (bool_decide_eq_true_1 _ Hp) | exact (bool_decide_eq_true_1 _ He)].
Qed.

Lemma on_new_step_same (self : t) :
  num_value self = old_num_value self -> on_new_step self = false.
Proof.
  unfold on_new_step. intros He.
  rewrite (bool_decide_eq_false_2 (num_value self ≠ _)) by tauto.
  apply andb_false_r.
Qed.

Lemma advances_true (self : t) (gs : Snapshot) :
  advances self gs = true ->
  num_value self > 0 /\ num_value self = old_num_value self.
Proof.
  unfold advances. intros Ha. apply andb_true_iff in Ha as [Hs _].
  exact (on_same_step_true self Hs).
Qed.

(** Whatever way an evaluation ends, a nonnegative index stays
    nonnegative and the cycle keeps its length. *)
Lemma native_value_frame (self : t) (grill_state : option Snapshot) :
  length (cook_cycle (after (native_value grill_state self)))
  = length (cook_cycle self)
  /\ (0 <= num_value self ->
      0 <= num_value (after (native_value grill_state self)))
  /\ (forall v, result (native_value grill_state self) = Ok v ->
        v = num_value (after (native_value grill_state self))
        /\ v <= Z.of_nat (length (cook_cycle self))).
Proof.
  destruct (guard_exit self grill_state) eqn:Hg.
  - rewrite (native_value_guard _ _ Hg). cbn.
    split; [reflexivity|]. split; [lia|]. intros v [= <-]. lia.
  - destruct grill_state as [gs|]; [|discriminate].
    destruct (native_value_spec gs self Hg)
      as (self1 & log1 & _ & _ & Hcc & Hnum & _ & Hend).
    assert (Hnum1 : 0 <= num_value self -> 0 <= num_value self1).
    { rewrite Hnum. destruct (advances self gs); lia. }
    destruct Hend as [(_ & ->) | [(_ & _ & ->) | (_ & _ & Hend)]].
    + cbn. split; [exact Hcc|]. unfold final_clamp at 1.
      split; [intros; case_bool_decide; lia|]. intros v [= <-].
      split; [reflexivity|]. unfold final_clamp. rewrite Hcc.
      case_bool_decide; lia.
    + cbn. split; [exact Hcc|]. split; [exact Hnum1 | discriminate].
    + destruct Hend as (self2 & log2 & (_ & _ & Hcc2 & Hnum2) & _ & ->).
      cbn. rewrite Hcc2. split; [exact Hcc|]. unfold final_clamp at 1.
      split; [intros; case_bool_decide; lia|]. intros v [= <-].
      split; [reflexivity|]. unfold final_clamp. rewrite Hcc2, Hcc.
      case_bool_decide; lia.
Qed.

(** The index of a reachable state is not negative. *)
Lemma reachable_nonneg (self : t) : reachable self -> 0 <= num_value self.
Proof.
  induction 1 as [gid | self gs _ IH | self steps _ IH | self value Hv _ IH].
  - reflexivity.
  - apply native_value_frame. exact IH.
  - exact IH.
  - cbn. apply round_nonneg. destruct Hv as [Hlo _]. exact Hlo.
Qed.

(** Starting from an index equal to the previous one, an evaluation
    schedules calls of the scan for that step and, when the scan has just
    moved the index, step-entry calls of the next step; without the move it
    schedules at most the raised target. *)
Lemma same_step_issued (self : t) (grill_state : option Snapshot) :
  num_value self = old_num_value self ->
  Forall (fun e => issued_from ScanAdvance (num_value self) e
                   \/ issued_from ImplementStep (num_value self + 1) e)
    (issued (native_value grill_state self))
  /\ (forall gs, grill_state = Some gs -> advances self gs = false ->
        issued (native_value grill_state self) = []
        \/ issued (native_value grill_state self)
           = [raise_target (grill_id self) (num_value self) gs])
  /\ (grill_state = None -> issued (native_value grill_state self) = []).
Proof.
  intros Hsame. destruct (guard_exit self grill_state) eqn:Hg.
  - rewrite (native_value_guard _ _ Hg). cbn.
    split; [constructor|]. split; [left|]; reflexivity.
  - destruct grill_state as [gs|]; [|discriminate].
    destruct (native_value_spec gs self Hg)
      as (self1 & log1 & _ & Hold & _ & Hnum & Hlog & Hend).
    assert (Hscan : Forall
              (fun e => issued_from ScanAdvance (num_value self) e
                        \/ issued_from ImplementStep (num_value self + 1) e)
              log1).
    { destruct Hlog as [-> | ->]; repeat constructor. }
    assert (Hnone : advances self gs = false -> on_new_step self1 = false).
    { intros Hno. rewrite Hno in Hnum. apply on_new_step_same. congruence. }
    destruct Hend as [(_ & ->) | [(_ & _ & ->) | (Hnew & _ & Hend)]].
    + cbn. split; [exact Hscan|]. split; [|discriminate].
      intros gs' [= <-] _. exact Hlog.
    + cbn. split; [exact Hscan|]. split; [|discriminate].
      intros gs' [= <-] _. exact Hlog.
    + destruct Hend as (self2 & log2 & _ & Hfrom & ->). cbn.
      destruct (advances self gs) eqn:Hadv;
        [|rewrite Hnone in Hnew by reflexivity; discriminate].
      split; [|split; [intros gs' [= <-] Hno; congruence | discriminate]].
      apply Forall_app. split; [exact Hscan|].
      rewrite Hnum in Hfrom. eapply Forall_impl; [exact Hfrom|].
      intros e He. right. exact He.
Qed.

(** C1 fails on the code. When the advance condition holds on the last
    step, the index moves to [len(cook_cycle) + 1] and the step-entry block
    reads [cook_cycle[len(cook_cycle)]]: the evaluation raises [IndexError]
    before the clamp of lines 250-252 is reached; the index is left past
    the end and [old_num_value] is not updated. *)
Theorem last_step_advance_raises (gs : Snapshot) (self : t) :
  guard_exit self (Some gs) = false ->
  num_value self = Z.of_nat (length (cook_cycle self)) ->
  advances self gs = true ->
  result (native_value (Some gs) self) = Raise IndexError
  /\ num_value (after (native_value (Some gs) self)) = num_value self + 1
  /\ old_num_value (after (native_value (Some gs) self))
     = old_num_value self.
Proof.
  intros Hg Hlast Hadv. destruct (advances_true _ _ Hadv) as [Hpos Hsame].
  destruct (native_value_spec gs self Hg)
    as (self1 & log1 & _ & Hold & Hcc & Hnum & _ & Hend).
  rewrite Hadv in Hnum.
  destruct Hend as [(Hnew & _) | [(_ & _ & ->) | (_ & Hin & _)]].
  - exfalso. unfold on_new_step in Hnew.
    rewrite bool_decide_eq_true_2, bool_decide_eq_true_2 in Hnew by lia.
    discriminate.
  - cbn. repeat split; assumption.
  - lia.
Qed.

(** C2. An evaluation without a snapshot, or with the index past the last
    step, or with a positive index while the mode is cool-down, sleeping,
    shutdown or idle, sets the index to [0] and returns [0]. A value that
    [native_value] returns is at most [len(cook_cycle)], and at least [0]
    when the index was not negative before; the index is not negative in any
    state the entity can reach, so there every returned value lies between
    [0] and [len(cook_cycle)]. *)
Theorem index_reverts_and_stays_in_range :
  (forall (self : t) (grill_state : option Snapshot),
     grill_state = None
     \/ num_value self > Z.of_nat (length (cook_cycle self))
     \/ (num_value self > 0
         /\ exists gs, grill_state = Some gs
              /\ gs_system_status gs ∈ not_cooking_modes) ->
     result (native_value grill_state self) = Ok 0
     /\ num_value (after (native_value grill_state self)) = 0)
  /\ (forall (self : t) (grill_state : option Snapshot) (v : Z),
        0 <= num_value self ->
        result (native_value grill_state self) = Ok v ->
        0 <= v
          <= Z.of_nat
               (length (cook_cycle (after (native_value grill_state self)))))
  /\ (forall (self : t), reachable self -> 0 <= num_value self)
  /\ (forall (self : t) (grill_state : option Snapshot) (v : Z),
        reachable self ->
        result (native_value grill_state self) = Ok v ->
        0 <= v
          <= Z.of_nat
               (length (cook_cycle (after (native_value grill_state self))))).
Proof.
  assert (Hrange : forall (self : t) (grill_state : option Snapshot) (v : Z),
            0 <= num_value self ->
            result (native_value grill_state self) = Ok v ->
            0 <= v
              <= Z.of_nat
                   (length
                      (cook_cycle (after (native_value grill_state self))))).
  { intros self grill_state v Hnn Hv.
    destruct (native_value_frame self grill_state) as (Hlen & Hnonneg & Hret).
    destruct (Hret v Hv) as [Hval Hle]. rewrite Hlen. split; [|exact Hle].
    rewrite Hval. exact (Hnonneg Hnn). }
  split; [|split; [exact Hrange | split; [exact reachable_nonneg|]]].
  - intros self grill_state Hguard.
    rewrite native_value_guard; [split; reflexivity|].
    unfold guard_exit. destruct grill_state as [gs|]; [|reflexivity].
    destruct Hguard as [[=] | [Hpast | (Hpos & gs' & [= <-] & Hmode)]].
    + rewrite (bool_decide_eq_true_2 _ Hpast). reflexivity.
    + rewrite (bool_decide_eq_true_2 _ Hpos), (bool_decide_eq_true_2 _ Hmode).
      apply orb_true_r.
  - intros self grill_state v Hreach. apply Hrange.
    exact (reachable_nonneg self Hreach).
Qed.

(** C7, as the code has it. In an evaluation that starts with the index
    equal to the previous one, the entry commands of that step are not issued
    again: every call comes from the scan of that step or, when the scan has
    just moved the index, from the entry of the next step. If the scan does
    not move the index, no step-entry command is issued at all: at most the
    target is raised by 5. *)
Theorem same_step_entry_not_repeated (self : t)
    (grill_state : option Snapshot) :
  num_value self = old_num_value self ->
  let out := native_value grill_state self in
  Forall (fun e => issued_from ScanAdvance (num_value self) e
                   \/ issued_from ImplementStep (num_value self + 1) e)
    (issued out)
  /\ (forall gs, grill_state = Some gs -> advances self gs = false ->
        issued out = []
        \/ issued out = [raise_target (grill_id self) (num_value self) gs])
  /\ (grill_state = None -> issued out = []).
Proof. intros Hsame out. exact (same_step_issued self grill_state Hsame). Qed.

(** C10. An evaluation that leaves through a guard clause returns [0],
    schedules nothing and leaves [old_num_value] as it was. Whenever the index
    is set to the value [old_num_value] holds, as after such an exit, the
    next evaluation issues no entry command of that step; if it passes the
    guards on a positive index it runs the scan (line 114 holds, line 153
    does not), and its calls come from the scan of that step or from the
    entry of the next one. *)
Theorem guard_exit_keeps_previous_index :
  (forall (self : t) (grill_state : option Snapshot),
     guard_exit self grill_state = true ->
     let out := native_value grill_state self in
     result out = Ok 0
     /\ issued out = []
     /\ old_num_value (after out) = old_num_value self)
  /\ (forall (self : t) (value : Q) (grill_state : option Snapshot),
        round value = old_num_value self ->
        let self' := after (async_set_native_value value self) in
        let out := native_value grill_state self' in
        Forall (fun e => ~ issued_from ImplementStep (old_num_value self) e)
          (issued out)
        /\ (guard_exit self' grill_state = false ->
            old_num_value self > 0 ->
            on_same_step self' = true
            /\ on_new_step self' = false
            /\ Forall
                 (fun e =>
                    issued_from ScanAdvance (old_num_value self) e
                    \/ issued_from ImplementStep (old_num_value self + 1) e)
                 (issued out))).
Proof.
  split.
  - intros self grill_state Hg out. subst out.
    rewrite (native_value_guard _ _ Hg). repeat split.
  - intros self value grill_state Hvalue self' out. subst out self'. cbn.
    set (self' := with_num_value (round value) self).
    assert (Hsame : num_value self' = old_num_value self') by exact Hvalue.
    destruct (same_step_issued self' grill_state Hsame) as (Hfrom & _).
    change (num_value self') with (round value) in Hfrom.
    rewrite Hvalue in Hfrom. split; [|split; [|split]].
    + eapply Forall_impl; [exact Hfrom|].
      intros e [[Hby _] | [_ Hstep]] [Hby' Hstep']; [congruence | lia].
    + unfold on_same_step. cbn. rewrite Hvalue.
      rewrite !bool_decide_eq_true_2 by (reflexivity || assumption).
      reflexivity.
    + apply on_new_step_same. exact Hsame.
    + exact Hfrom.
Qed.

End WithConsts.

(** The timer completes on the only step of a cycle. *)
Lemma last_step_advance_raises_witness :
  result (native_value (H := sample_consts) (Some (cooking 1)) on_last_step)
  = Raise IndexError.
Proof.
  apply (@last_step_advance_raises sample_consts (cooking 1) on_last_step);
    reflexivity.
Defined.

(** A loaded cycle with the index on its second step: an idle grill reverts
    it to 0, a cooking grill returns 2. *)
Lemma index_reverts_and_stays_in_range_witness :
  (result (native_value (H := sample_consts) (Some (sample_snapshot 3 0 70 FAHRENHEIT))
             loaded_at_2) = Ok 0
   /\ num_value (after (native_value (H := sample_consts)
                          (Some (sample_snapshot 3 0 70 FAHRENHEIT))
                          loaded_at_2)) = 0)
  /\ 0 <= 2 <= 2.
Proof.
  split.
  - apply (proj1 (@index_reverts_and_stays_in_range sample_consts)
             loaded_at_2 (Some (sample_snapshot 3 0 70 FAHRENHEIT))).
    right. right. split; [reflexivity|].
    eexists. split; [reflexivity | by_compute].
  - apply (proj2 (proj2 (proj2 (@index_reverts_and_stays_in_range
                                  sample_consts)))
             loaded_at_2 (Some (cooking 0)) 2).
    + unfold loaded_at_2. apply reachable_set_native_value.
      * split; discriminate.
      * apply reachable_set_custom_cook, reachable_init.
    + reflexivity.
Defined.

(** On step 1 with the timer still running: nothing but the scan runs. *)
Lemma same_step_entry_not_repeated_witness :
  issued (native_value (H := sample_consts) (Some (cooking 0)) on_first_step)
  = []
  \/ issued (native_value (H := sample_consts) (Some (cooking 0))
               on_first_step)
     = [raise_target "grill" 1 (cooking 0)].
Proof.
  apply (proj1 (proj2 (@same_step_entry_not_repeated sample_consts
                         on_first_step (Some (cooking 0)) eq_refl))
           (cooking 0) eq_refl).
  reflexivity.
Defined.

(** C7 as the claim states it fails: the index equals the previous one, the
    timer has completed, and the evaluation sets the timer of step 2, a
    step-entry command. *)
Lemma advance_enters_next_step :
  num_value on_first_step = old_num_value on_first_step
  /\ native_value (H := sample_consts) (Some (cooking 1)) on_first_step
     = (Ok 2,
        with_old_num_value 2 (with_num_value 2 on_first_step),
        [{| issued_by := ImplementStep; issued_step := 2;
            issued_call :=
              {| domain := "number"; service := "set_value";
                 service_data :=
                   [("entity_id", VStr "number.grill_cook_timer");
                    ("value", VInt 600)] |} |}]).
Proof. split; reflexivity. Qed.

(** The snapshot is lost on step 1, then the index is set to 1 again. *)
Lemma guard_exit_keeps_previous_index_witness :
  old_num_value
    (after (native_value (H := sample_consts) None on_first_step)) = 1
  /\ on_same_step
       (after (async_set_native_value 1
                 (after (native_value (H := sample_consts) None
                           on_first_step)))) = true.
Proof.
  split.
  - apply (proj1 (@guard_exit_keeps_previous_index sample_consts)
             on_first_step None eq_refl).
  - apply (proj2 (@guard_exit_keeps_previous_index sample_consts)
             (after (native_value (H := sample_consts) None on_first_step))
             1%Q (Some (cooking 0)) eq_refl);
      reflexivity.
Defined.

End CookCycFacts.

(** * Further properties *)

(** ** [HeatingState]: labels, history and the icon *)

Module HeatingStateMore.
Import HeatingState HeatingStateSpec.

Section WithConsts.
Context `{GrillConsts}.

Lemma hysteresis_heating (c tg lo hi : Z) :
  hysteresis "heating" c tg lo hi =
    Some (if bool_decide (c >= tg) then "at_temp" else "heating").
Proof. reflexivity. Qed.

Lemma hysteresis_cooling (c tg lo hi : Z) :
  hysteresis "cooling" c tg lo hi =
    Some (if bool_decide (c <= tg) then "at_temp" else "cooling").
Proof. reflexivity. Qed.

Lemma hysteresis_under_temp (c tg lo hi : Z) :
  hysteresis "under_temp" c tg lo hi =
    Some (if bool_decide (c > lo) then "at_temp" else "under_temp").
Proof. reflexivity. Qed.

Lemma hysteresis_over_temp (c tg lo hi : Z) :
  hysteresis "over_temp" c tg lo hi =
    Some (if bool_decide (c < hi) then "at_temp" else "over_temp").
Proof. reflexivity. Qed.

(** The label of the cooking branch, with what it tells about the
    temperatures and about where it came from. *)
Lemma cook_label_cases (prev : string) (changed : bool) (c tg lo hi : Z) :
  let label :=
    match hysteresis prev c tg lo hi with
    | Some l => if changed then on_target_changed c tg else l
    | None => on_target_changed c tg
    end in
  (label = "heating" /\ c <= tg)
  \/ (label = "cooling" /\ c > tg)
  \/ label = "at_temp"
  \/ (label = "under_temp" /\ c <= lo /\ changed = false
      /\ prev ∈ ["at_temp"; "under_temp"])
  \/ (label = "over_temp" /\ c >= hi /\ changed = false
      /\ prev ∈ ["at_temp"; "over_temp"]).
Proof.
  unfold hysteresis, on_target_changed. cbv zeta.
  destruct changed; repeat case_bool_decide; subst; elems;
    first [ left; split; [reflexivity | lia]
          | right; left; split; [reflexivity | lia]
          | right; right; left; reflexivity
          | right; right; right; left;
            split; [reflexivity | split; [lia | split; [reflexivity | tauto]]]
          | right; right; right; right;
            split; [reflexivity | split; [lia | split; [reflexivity | tauto]]] ].
Qed.

(** The three branches of [state] on a snapshot. *)
Lemma state_branches (self : t) (gs : Snapshot) :
  (state self (Some gs)).2
  = {| previous_target_temp := Some (gs_set gs);
       previous_state := (state self (Some gs)).1 |}
  /\ ((gs_system_status gs ∈ preheat_modes
       /\ (state self (Some gs)).1
          = (if bool_decide
                  (gs_grill gs
                   < (if is_celsius (grill_units gs) then GRILL_MIN_TEMP_C
                      else GRILL_MIN_TEMP_F))
             then "preheating" else "heating"))
      \/ ((gs_system_status gs ∉ preheat_modes)
          /\ gs_system_status gs ∈ cook_modes
          /\ (state self (Some gs)).1
             = match hysteresis (previous_state self) (gs_grill gs)
                       (gs_set gs) (gs_set gs - swing_of (grill_units gs))
                       (gs_set gs + swing_of (grill_units gs)) with
               | Some l =>
                 if bool_decide (Some (gs_set gs) ≠ previous_target_temp self)
                 then on_target_changed (gs_grill gs) (gs_set gs) else l
               | None => on_target_changed (gs_grill gs) (gs_set gs)
               end)
      \/ ((gs_system_status gs ∉ preheat_modes)
          /\ (gs_system_status gs ∉ cook_modes)
          /\ (state self (Some gs)).1
             = (if bool_decide (gs_system_status gs = GRILL_MODE_COOL_DOWN)
                then "cool_down" else "idle"))).
Proof.
  split; [reflexivity|]. unfold state. cbn [fst].
  destruct (decide (gs_system_status gs ∈ preheat_modes)) as [Hp | Hp].
  - left. rewrite (bool_decide_eq_true_2 _ Hp). split; [exact Hp | reflexivity].
  - right. rewrite (bool_decide_eq_false_2 _ Hp).
    destruct (decide (gs_system_status gs ∈ cook_modes)) as [Hc | Hc].
    + left. rewrite (bool_decide_eq_true_2 _ Hc).
      split; [exact Hp|]. split; [exact Hc|].
      destruct (grill_units gs); reflexivity.
    + right. rewrite (bool_decide_eq_false_2 _ Hc). repeat split; assumption.
Qed.

(** X1. [over_temp] and [under_temp] are only reported in a cooking mode,
    with the target unchanged, coming from [at_temp] or from the same label,
    and with the grill at least the swing above, respectively below, the
    target. *)
Theorem alert_labels_sound (self : t) (gs : Snapshot) :
  let label := (state self (Some gs)).1 in
  let swing := swing_of (grill_units gs) in
  (label = "over_temp" ->
     gs_system_status gs ∈ cook_modes
     /\ previous_target_temp self = Some (gs_set gs)
     /\ previous_state self ∈ ["at_temp"; "over_temp"]
     /\ gs_grill gs >= gs_set gs + swing)
  /\ (label = "under_temp" ->
        gs_system_status gs ∈ cook_modes
        /\ previous_target_temp self = Some (gs_set gs)
        /\ previous_state self ∈ ["at_temp"; "under_temp"]
        /\ gs_grill gs <= gs_set gs - swing).
Proof.
  intros label swing. subst label swing.
  destruct (state_branches self gs) as [_ [(_ & ->) | [(_ & Hc & ->) | (_ & _ & ->)]]].
  - split; case_bool_decide; discriminate.
  - pose proof (cook_label_cases (previous_state self)
                  (bool_decide (Some (gs_set gs) ≠ previous_target_temp self))
                  (gs_grill gs) (gs_set gs)
                  (gs_set gs - swing_of (grill_units gs))
                  (gs_set gs + swing_of (grill_units gs))) as Hcases.
    cbv zeta in Hcases.
    assert (Hsame : bool_decide (Some (gs_set gs) ≠ previous_target_temp self)
                    = false -> previous_target_temp self = Some (gs_set gs)).
    { intros Hb. apply bool_decide_eq_false_1 in Hb.
      destruct (decide (previous_target_temp self = Some (gs_set gs)));
        [assumption | exfalso; apply Hb; congruence]. }
    split; intros Hl; rewrite Hl in Hcases;
      destruct Hcases
        as [[Hx _] | [[Hx _] | [Hx | [(Hx & Hle & Hch & Hprev)
                                     | (Hx & Hge & Hch & Hprev)]]]];
      try discriminate Hx; auto.
  - split; case_bool_decide; discriminate.
Qed.

(** X2. Outside the cooking branch the label ignores the history: in a
    preheat mode it is [preheating] below the minimum cook temperature of the
    unit and [heating] otherwise; in a mode that is neither a preheat nor a
    cooking mode it is [cool_down] for the cool-down mode and [idle]
    otherwise. *)
Theorem label_without_history (self : t) (gs : Snapshot) :
  let label := (state self (Some gs)).1 in
  let min_cook_temp :=
    match grill_units gs with
    | CELSIUS => GRILL_MIN_TEMP_C
    | FAHRENHEIT => GRILL_MIN_TEMP_F
    end in
  (gs_system_status gs = GRILL_MODE_PREHEATING
   \/ gs_system_status gs = GRILL_MODE_IGNITING ->
     (gs_grill gs < min_cook_temp -> label = "preheating")
     /\ (gs_grill gs >= min_cook_temp -> label = "heating"))
  /\ (gs_system_status gs ∉ preheat_modes ->
      gs_system_status gs ∉ cook_modes ->
        (gs_system_status gs = GRILL_MODE_COOL_DOWN -> label = "cool_down")
        /\ (gs_system_status gs ≠ GRILL_MODE_COOL_DOWN -> label = "idle"))
  /\ (gs_system_status gs ∈ preheat_modes
      \/ gs_system_status gs ∉ cook_modes ->
      forall self' : t, (state self' (Some gs)).1 = label).
Proof.
  intros label min_cook_temp. subst label min_cook_temp.
  assert (Hmin : (if is_celsius (grill_units gs) then GRILL_MIN_TEMP_C
                  else GRILL_MIN_TEMP_F)
                 = match grill_units gs with
                   | CELSIUS => GRILL_MIN_TEMP_C
                   | FAHRENHEIT => GRILL_MIN_TEMP_F
                   end) by (destruct (grill_units gs); reflexivity).
  split; [|split].
  - intros Hmode.
    assert (Hp : gs_system_status gs ∈ preheat_modes)
      by (unfold preheat_modes; elems; tauto).
    destruct (state_branches self gs)
      as [_ [(_ & ->) | [(Hn & _) | (Hn & _)]]]; try tauto.
    rewrite Hmin. case_bool_decide; split; intros; (reflexivity || lia).
  - intros Hp Hc.
    destruct (state_branches self gs)
      as [_ [(Hn & _) | [(_ & Hn & _) | (_ & _ & ->)]]]; try tauto.
    case_bool_decide; split; intros; (reflexivity || tauto).
  - intros Hmode self'.
    destruct (state_branches self gs)
      as [_ [(Hp & ->) | [(Hp & Hc & _) | (Hp & Hc & ->)]]];
      destruct (state_branches self' gs)
        as [_ [(Hp' & ->) | [(Hp' & Hc' & _) | (Hp' & Hc' & ->)]]];
      tauto || reflexivity.
Qed.

(** X3. On one snapshot the classifier settles with its second evaluation:
    evaluated again on the attributes the second evaluation left, [state]
    returns the same label and leaves the same attributes, whatever the
    attributes were before the first. *)
Theorem label_settles (self : t) (gs : Snapshot) :
  let first := state self (Some gs) in
  let second := state first.2 (Some gs) in
  state second.2 (Some gs) = second.
Proof.
  intros first second. subst first second.
  destruct (state_branches self gs) as [Hs1 Hl1].
  destruct (state self (Some gs)) as [l1 s1]. cbn [fst snd] in *. subst s1.
  destruct (state_branches
              {| previous_target_temp := Some (gs_set gs);
                 previous_state := l1 |} gs) as [Hs2 Hl2].
  destruct (state {| previous_target_temp := Some (gs_set gs);
                     previous_state := l1 |} (Some gs)) as [l2 s2].
  cbn [fst snd] in *. subst s2.
  destruct (state_branches
              {| previous_target_temp := Some (gs_set gs);
                 previous_state := l2 |} gs) as [Hs3 Hl3].
  destruct (state {| previous_target_temp := Some (gs_set gs);
                     previous_state := l2 |} (Some gs)) as [l3 s3].
  cbn [fst snd] in *. subst s3.
  cbn [previous_state previous_target_temp] in Hl2, Hl3.
  rewrite (bool_decide_eq_false_2 (Some (gs_set gs) ≠ Some (gs_set gs)))
    in Hl2, Hl3 by tauto.
  assert (Hlabel : l3 = l2); [|rewrite Hlabel; reflexivity].
  destruct Hl3 as [(Hp & ->) | [(Hp & Hc & ->) | (Hp & Hc & ->)]];
    destruct Hl2 as [(Hp' & Hl2) | [(Hp' & Hc' & Hl2) | (Hp' & Hc' & Hl2)]];
    try tauto; try (rewrite Hl2; reflexivity).
  destruct Hl1 as [(Hp1 & _) | [(_ & _ & Hl1) | (_ & Hc1 & _)]]; try tauto.
  pose proof (cook_label_cases (previous_state self)
                (bool_decide (Some (gs_set gs) ≠ previous_target_temp self))
                (gs_grill gs) (gs_set gs)
                (gs_set gs - swing_of (grill_units gs))
                (gs_set gs + swing_of (grill_units gs))) as Hcases.
  cbv zeta in Hcases. rewrite <- Hl1 in Hcases. clear Hl1.
  assert (Hswing : 0 < swing_of (grill_units gs))
    by (destruct (grill_units gs); reflexivity).
  revert Hl2.
  destruct Hcases
    as [[-> Hc1] | [[-> Hc1] | [-> | [(-> & Hc1 & _) | (-> & Hc1 & _)]]]];
    repeat first [ rewrite hysteresis_heating | rewrite hysteresis_cooling
                 | rewrite HeatingStateFacts.hysteresis_at_temp
                 | rewrite hysteresis_under_temp
                 | rewrite hysteresis_over_temp ];
    intros ->;
    repeat first [ rewrite hysteresis_heating | rewrite hysteresis_cooling
                 | rewrite HeatingStateFacts.hysteresis_at_temp
                 | rewrite hysteresis_under_temp
                 | rewrite hysteresis_over_temp
                 | case_bool_decide ];
    first [reflexivity | lia].
Qed.

(** X4. [icon] is not read-only: it leaves the attributes one evaluation of
    [state] leaves. It shows the alert exactly when that evaluation returns
    [over_temp], so only in a cooking mode with the grill at least the swing
    above the target, and never without a snapshot. Read after [state] on
    the same snapshot, it shows the alert exactly when the next read of
    [state] returns [over_temp]. *)
Theorem icon_alert (self : t) (grill_state : option Snapshot) :
  (icon self grill_state).2 = (state self grill_state).2
  /\ ((icon self grill_state).1 = "mdi:fire-alert"
      \/ (icon self grill_state).1 = "mdi:fire")
  /\ ((icon self grill_state).1 = "mdi:fire-alert"
      <-> (state self grill_state).1 = "over_temp")
  /\ ((icon self grill_state).1 = "mdi:fire-alert" ->
      exists gs, grill_state = Some gs
        /\ gs_system_status gs ∈ cook_modes
        /\ gs_grill gs >= gs_set gs + swing_of (grill_units gs))
  /\ (forall gs, grill_state = Some gs ->
        let seen := icon (state self grill_state).2 grill_state in
        seen.1 = "mdi:fire-alert"
        <-> (state seen.2 grill_state).1 = "over_temp").
Proof.
  assert (Hicon : forall s g,
            (icon s g).2 = (state s g).2
            /\ ((icon s g).1 = "mdi:fire-alert" \/ (icon s g).1 = "mdi:fire")
            /\ ((icon s g).1 = "mdi:fire-alert"
                <-> (state s g).1 = "over_temp")).
  { intros s g. unfold icon. destruct (state s g) as [l s']. cbn.
    case_bool_decide as Hl; (split; [reflexivity|]).
    - split; [left; reflexivity|]. split; [intros _; exact Hl | reflexivity].
    - split; [right; reflexivity|]. split; [discriminate | tauto]. }
  destruct (Hicon self grill_state) as (Hattrs & Htwo & Hiff).
  split; [exact Hattrs|]. split; [exact Htwo|]. split; [exact Hiff|]. split.
  - intros Halert. apply Hiff in Halert.
    destruct grill_state as [gs|]; [|discriminate].
    exists gs. split; [reflexivity|].
    destruct (alert_labels_sound self gs) as [Hover _].
    destruct (Hover Halert) as (Hc & _ & _ & Hge). split; assumption.
  - intros gs -> seen. subst seen.
    destruct (Hicon (state self (Some gs)).2 (Some gs)) as (Ha & _ & Hi).
    rewrite Ha, Hi.
    pose proof (label_settles self gs) as Hfix. cbv zeta in Hfix.
    rewrite Hfix. reflexivity.
Qed.

End WithConsts.
End HeatingStateMore.

Module HeatingStateMoreWitnesses.
Import HeatingState HeatingStateSpec.

(** Coming from [at_temp] at target 225, the grill at 246. *)
Lemma alert_labels_sound_witness :
  gs_system_status (sample_snapshot 7 225 246 FAHRENHEIT)
    ∈ cook_modes (H := sample_consts)
  /\ previous_target_temp at_temp_225 = Some 225
  /\ previous_state at_temp_225 ∈ ["at_temp"; "over_temp"]
  /\ 246 >= 225 + 20.
Proof.
  apply (proj1 (@HeatingStateMore.alert_labels_sound sample_consts
                  at_temp_225 (sample_snapshot 7 225 246 FAHRENHEIT))).
  reflexivity.
Defined.

(** Igniting at 100 degrees Fahrenheit. *)
Lemma label_without_history_witness :
  (state (H := sample_consts) at_temp_225
     (Some (sample_snapshot 4 225 100 FAHRENHEIT))).1 = "preheating".
Proof.
  apply (proj1 (proj1 (@HeatingStateMore.label_without_history sample_consts
                         at_temp_225 (sample_snapshot 4 225 100 FAHRENHEIT))
                  (or_intror eq_refl))).
  reflexivity.
Defined.

(** Coming from [at_temp] at target 225, the grill at 246. *)
Lemma icon_alert_witness :
  exists gs, Some (sample_snapshot 7 225 246 FAHRENHEIT) = Some gs
    /\ gs_system_status gs ∈ cook_modes (H := sample_consts)
    /\ gs_grill gs >= gs_set gs + swing_of (grill_units gs).
Proof.
  apply (proj1 (proj2 (proj2 (proj2
           (@HeatingStateMore.icon_alert sample_consts at_temp_225
              (Some (sample_snapshot 7 225 246 FAHRENHEIT))))))).
  reflexivity.
Defined.

End HeatingStateMoreWitnesses.

(** ** [GrillState] *)

Module GrillStateFacts.
Import GrillState GrillStateSpec.

Section WithConsts.
Context `{GrillConsts}.

(** X5. Without a snapshot [GrillState.state] raises [TypeError]. With one
    it returns a label, which is [unknown] exactly when the mode is none of
    the nine known codes; the codes being distinct, every known code gets its
    own label, and two known codes never share one. *)
Theorem grill_state_labels :
  state None = Raise TypeError
  /\ (forall gs : Snapshot,
        exists label, state (Some gs) = Ok label
          /\ (label = "unknown" <-> gs_system_status gs ∉ mode_labels.*1))
  /\ (GrillModesDistinct ->
      forall (gs : Snapshot) (label : string),
        (gs_system_status gs, label) ∈ mode_labels ->
        state (Some gs) = Ok label)
  /\ (GrillModesDistinct ->
      forall (gs gs' : Snapshot),
        gs_system_status gs ∈ mode_labels.*1 ->
        state (Some gs) = state (Some gs') ->
        gs_system_status gs = gs_system_status gs').
Proof.
  assert (Htable : GrillModesDistinct ->
            forall (gs : Snapshot) (label : string),
              (gs_system_status gs, label) ∈ mode_labels ->
              state (Some gs) = Ok label).
  { intros Hnd gs label Hin. unfold GrillModesDistinct in Hnd.
    repeat (apply NoDup_cons in Hnd; destruct Hnd as [? Hnd]).
    unfold mode_labels in Hin. elems. unfold state. f_equal.
    repeat (destruct Hin as [Hin | Hin]);
      try contradiction; injection Hin as Hm ->; rewrite Hm;
      repeat (case_bool_decide; [first [reflexivity | exfalso; tauto
                                        | exfalso; intuition congruence]|]);
      exfalso; tauto. }
  assert (Hunknown : forall gs : Snapshot,
            exists label, state (Some gs) = Ok label
              /\ (label = "unknown" <-> gs_system_status gs ∉ mode_labels.*1)).
  { intros gs. eexists. split; [reflexivity|].
    unfold mode_labels. cbn [fmap list_fmap fst]. elems.
    repeat (case_bool_decide; [split; [discriminate | tauto]|]).
    split; [tauto | reflexivity]. }
  split; [reflexivity|]. split; [exact Hunknown|]. split; [exact Htable|].
  intros Hnd gs gs' Hknown Heq.
  assert (Hl : exists label, (gs_system_status gs, label) ∈ mode_labels).
  { apply list_elem_of_fmap in Hknown as ([m l] & -> & Hin). exists l. exact Hin. }
  destruct Hl as [label Hin]. rewrite (Htable Hnd gs label Hin) in Heq.
  symmetry in Heq. revert Heq. unfold state. intros [= Heq].
  unfold GrillModesDistinct in Hnd.
  repeat (apply NoDup_cons in Hnd; destruct Hnd as [? Hnd]).
  unfold mode_labels in Hin. elems.
  repeat (destruct Hin as [Hin | Hin]);
    try contradiction; injection Hin as Hm ->; rewrite Hm;
    revert Heq;
    repeat (case_bool_decide; [first [discriminate | intros _; congruence]|]);
    discriminate.
Qed.

End WithConsts.

(** Custom cook under the sample codes. *)
Lemma grill_state_labels_witness :
  GrillState.state (H := sample_consts)
    (Some (sample_snapshot 7 225 225 FAHRENHEIT)) = Ok "cook_custom".
Proof.
  apply (proj1 (proj2 (proj2 (@grill_state_labels sample_consts)))
           sample_consts_distinct).
  by_compute.
Defined.

End GrillStateFacts.

(** ** [ProbeState]: outcomes of [state] *)

Module ProbeStateMore.
Import ProbeState ProbeStateSpec.

Section WithConsts.
Context `{GrillConsts}.

(** X6. Without an accessory [state] returns [idle] and writes nothing;
    with an accessory and no snapshot it raises [TypeError] and writes
    nothing. With both it returns one of five labels and records the target;
    the label is [at_temp] exactly when the latch is set afterwards and the
    probe is below the fell-out threshold, and after [close], [set] or
    [idle] the latch is clear. *)
Theorem probe_state_outcome :
  (forall (self : t) (grill_state : option Snapshot),
     state self grill_state None = (Ok "idle", self))
  /\ (forall (self : t) (acc : Accessory),
        state self None (Some acc) = (Raise TypeError, self))
  /\ (forall (self : t) (gs : Snapshot) (acc : Accessory),
        let out := state self (Some gs) (Some acc) in
        exists label, out.1 = Ok label
          /\ label ∈ ["fell_out"; "at_temp"; "close"; "set"; "idle"]
          /\ previous_target_temp out.2 = Some (acc_set_temp acc)
          /\ (label = "at_temp"
              <-> probe_alarm out.2 = true
                  /\ acc_get_temp acc < fell_out_temp (grill_units gs))
          /\ (label ∈ ["close"; "set"; "idle"] -> probe_alarm out.2 = false)).
Proof.
  split; [reflexivity|]. split; [reflexivity|].
  intros self gs acc out. subst out. unfold state.
  set (s1 := latch _ _ _ _ _).
  case_bool_decide as Hhot.
  - exists "fell_out". cbn. split; [reflexivity|]. elems.
    split; [tauto|]. split; [reflexivity|].
    split; [split; [discriminate | lia]|].
    intros [[=] | [[=] | [[=] | []]]].
  - destruct (probe_alarm s1) eqn:Hlatch.
    + exists "at_temp". cbn. split; [reflexivity|]. elems.
      split; [tauto|]. split; [reflexivity|].
      split; [split; [intros _; split; [exact Hlatch | lia] | reflexivity]|].
      intros [[=] | [[=] | [[=] | []]]].
    + destruct (_ && _); [case_bool_decide|]; cbn;
        eexists; (split; [reflexivity|]); elems;
        (split; [tauto|]); (split; [reflexivity|]);
        (split; [split; [discriminate | rewrite ?Hlatch; intros [[=] _]]|]);
        intros _; first [exact Hlatch | reflexivity].
Qed.

(** X7. Below the fell-out threshold and with the latch not deciding the
    label: [close] exactly when there is a nonzero target, the mode is an
    active-cooking one and the probe is within the close threshold (3 in
    Celsius, 5 in Fahrenheit) of the target; [set] exactly when it is
    further below; [idle] exactly when the target is 0 or the mode is not an
    active-cooking one. *)
Theorem probe_progress_labels (self : t) (gs : Snapshot) (acc : Accessory) :
  let label := (state self (Some gs) (Some acc)).1 in
  let near := close_temp (grill_units gs) in
  close_temp CELSIUS = 3 /\ close_temp FAHRENHEIT = 5
  /\ (acc_get_temp acc < fell_out_temp (grill_units gs) ->
      label ≠ Ok "at_temp" ->
      (label = Ok "close"
       <-> acc_set_temp acc ≠ 0
           /\ gs_system_status gs ∈ active_modes
           /\ acc_get_temp acc + near >= acc_set_temp acc)
      /\ (label = Ok "set"
          <-> acc_set_temp acc ≠ 0
              /\ gs_system_status gs ∈ active_modes
              /\ acc_get_temp acc + near < acc_set_temp acc)
      /\ (label = Ok "idle"
          <-> acc_set_temp acc = 0
              \/ gs_system_status gs ∉ active_modes)).
Proof.
  intros label near. subst label near.
  split; [reflexivity|]. split; [reflexivity|].
  unfold state. set (s1 := latch _ _ _ _ _). intros Hcool.
  rewrite (bool_decide_eq_false_2 (acc_get_temp acc >= _)) by lia.
  destruct (probe_alarm s1); [intros Hne; exfalso; apply Hne; reflexivity|].
  intros _.
  destruct (decide (acc_set_temp acc = 0)) as [Hz | Hnz].
  - rewrite (bool_decide_eq_false_2 (acc_set_temp acc ≠ 0)) by tauto.
    cbn. repeat split; try discriminate; try tauto; intros; tauto.
  - rewrite (bool_decide_eq_true_2 (acc_set_temp acc ≠ 0)) by tauto.
    destruct (decide (gs_system_status gs ∈ active_modes)) as [Ha | Hna].
    + rewrite (bool_decide_eq_true_2 _ Ha). cbn.
      case_bool_decide; cbn;
        (repeat split; try discriminate; try tauto; try lia; intros;
           try tauto; try lia).
    + rewrite (bool_decide_eq_false_2 _ Hna). cbn.
      repeat split; try discriminate; try tauto; intros; tauto.
Qed.

End WithConsts.

(** A probe at 158 with target 160 in custom-cook mode, Fahrenheit. *)
Lemma probe_state_outcome_witness :
  probe_alarm
    (state (H := sample_consts) init
       (Some (sample_snapshot 7 225 225 FAHRENHEIT))
       (Some (sample_accessory 160 158 (Some 0)))).2 = false.
Proof.
  destruct (proj2 (proj2 (@probe_state_outcome sample_consts)) init
              (sample_snapshot 7 225 225 FAHRENHEIT)
              (sample_accessory 160 158 (Some 0)))
    as (label & Hlabel & _ & _ & _ & Hclear).
  apply Hclear. injection Hlabel as <-. by_compute.
Defined.

Lemma probe_progress_labels_witness :
  (state (H := sample_consts) init
     (Some (sample_snapshot 7 225 225 FAHRENHEIT))
     (Some (sample_accessory 160 158 (Some 0)))).1 = Ok "close".
Proof.
  apply (proj2 (proj2 (@probe_progress_labels sample_consts init
                         (sample_snapshot 7 225 225 FAHRENHEIT)
                         (sample_accessory 160 158 (Some 0))))).
  - reflexivity.
  - discriminate.
  - split; [discriminate|]. split; [by_compute | discriminate].
Defined.

End ProbeStateMore.

(** ** [CookCycNumberEntity]: what an evaluation issues, writes and returns *)

Module CookCycMore.
Import CookCycNumberEntity CookCycSpec CookCycMoreSpec CookCycFacts.
Local Open Scope py_scope.

#[local] Existing Instance kept_or_reset_preorder.

Section WithConsts.
Context `{GrillConsts}.

Lemma getitem_current (self : t) (curstep : gmap string Z) :
  num_value self > 0 ->
  current_step self = Some curstep ->
  getitem (cook_cycle self) (num_value self - 1) = Ok curstep.
Proof.
  unfold current_step. intros Hpos Hstep.
  pose proof (lookup_lt_Some _ _ _ Hstep) as Hlt.
  destruct (getitem_in_range (cook_cycle self) (num_value self - 1))
    as (x & -> & Hx); [lia|]. congruence.
Qed.

Lemma on_new_step_true (self : t) :
  on_new_step self = true ->
  num_value self > 0 /\ num_value self ≠ old_num_value self.
Proof.
  unfold on_new_step. intros Hs. apply andb_true_iff in Hs as [Hp He].
  split; [exact (bool_decide_eq_true_1 _ Hp) | exact (bool_decide_eq_true_1 _ He)].
Qed.

(** The step-entry block on a step of the list: its calls, and the reset of
    the index by a shutdown step. *)
Lemma implement_entering (gs : Snapshot) (self : t)
    (curstep : gmap string Z) :
  on_new_step self = true ->
  current_step self = Some curstep ->
  implement_next_step gs self
  = (Ok tt,
     (if shuts_down curstep then with_num_value 0 self else self),
     entry_calls (grill_id self) (num_value self) curstep gs).
Proof.
  intros Hnew Hstep. destruct (on_new_step_true _ Hnew) as [Hpos _].
  unfold implement_next_step. rewrite bind_get_self, Hnew.
  rewrite (getitem_current _ _ Hpos Hstep), bind_lift_Ok.
  set (gid := grill_id self). set (n := num_value self).
  match goal with
  | |- bind ?m1 (fun _ => bind ?m2 (fun _ => bind ?m3 (fun _ =>
         bind ?m4 (fun _ => bind ?m5 (fun _ => ?m6))))) self = _ =>
    assert (H1 : m1 self = (Ok tt, self, timer_call gid n curstep));
    [|assert (H2 : m2 self = (Ok tt, self, probe_target_call n curstep gs));
      [|assert (H3 : m3 self
                     = (Ok tt, self, grill_target_call gid n curstep));
        [|assert (H4 : m4 self
                       = (Ok tt, self, smoke_call gid n curstep gs));
          [|assert (H5 : m5 self
                         = (Ok tt, self, keepwarm_call gid n curstep gs));
            [|assert (H6 : m6 self
                           = (Ok tt,
                              (if shuts_down curstep
                               then with_num_value 0 self else self),
                              if shuts_down curstep
                              then [hvac_cool gid n] else []))]]]]]
  end.
  - unfold timer_call. destruct (curstep !! "time_set");
      rewrite ?round_inject_Z; reflexivity.
  - unfold probe_target_call. destruct (curstep !! "probe_set_temp");
      rewrite ?round_inject_Z; reflexivity.
  - unfold grill_target_call. destruct (curstep !! "set_temp");
      rewrite ?round_inject_Z; reflexivity.
  - unfold smoke_call. destruct (curstep !! "smoke") as [smoke|];
      [|reflexivity].
    destruct (_ && _); [|reflexivity].
    destruct (bool_decide (smoke = 1)); reflexivity.
  - unfold keepwarm_call. destruct (curstep !! "keepwarm") as [keepwarm|];
      [|reflexivity].
    destruct (bool_decide (gs_keepwarm gs ≠ keepwarm)); [|reflexivity].
    destruct (bool_decide (keepwarm = 1)); reflexivity.
  - unfold shuts_down. destruct (curstep !! "shutdown") as [shutdown|].
    + destruct (decide (shutdown = 1)) as [-> | Hns].
      * rewrite !bool_decide_eq_true_2 by reflexivity. reflexivity.
      * rewrite (bool_decide_eq_false_2 (shutdown = 1)) by exact Hns.
        rewrite (bool_decide_eq_false_2 (Some shutdown = Some 1))
          by congruence.
        destruct self; reflexivity.
    + rewrite (bool_decide_eq_false_2 (None = Some 1)) by discriminate.
      destruct self; reflexivity.
  - rewrite (bind_runs _ _ _ _ _ H1), (bind_runs _ _ _ _ _ H2),
      (bind_runs _ _ _ _ _ H3), (bind_runs _ _ _ _ _ H4),
      (bind_runs _ _ _ _ _ H5), H6.
    reflexivity.
Qed.

Lemma scan_skipped (gs : Snapshot) (self : t) :
  on_same_step self = false ->
  scan_for_next_step_advance gs self = (Ok tt, self, []).
Proof.
  intros Hsame. unfold scan_for_next_step_advance.
  rewrite bind_get_self, Hsame. reflexivity.
Qed.

Lemma on_same_step_new (self : t) :
  on_new_step self = true -> on_same_step self = false.
Proof.
  intros Hnew. destruct (on_new_step_true _ Hnew) as [_ Hne].
  unfold on_same_step.
  rewrite (bool_decide_eq_false_2 (num_value self = _)) by exact Hne.
  apply andb_false_r.
Qed.

Lemma on_new_step_intro (self : t) :
  num_value self > 0 -> num_value self ≠ old_num_value self ->
  on_new_step self = true.
Proof.
  intros Hpos Hne. unfold on_new_step.
  rewrite (bool_decide_eq_true_2 _ Hpos), (bool_decide_eq_true_2 _ Hne).
  reflexivity.
Qed.

Lemma current_step_is_Some (self : t) :
  0 < num_value self <= Z.of_nat (length (cook_cycle self)) ->
  is_Some (current_step self).
Proof. intros Hn. apply lookup_lt_is_Some_2. lia. Qed.

Lemma final_clamp_in_range (self : t) :
  num_value self <= Z.of_nat (length (cook_cycle self)) ->
  final_clamp self = num_value self.
Proof.
  intros Hn. unfold final_clamp. rewrite bool_decide_eq_false_2 by lia.
  reflexivity.
Qed.

(** X8. Entering a step: an evaluation that passes the guards with a
    positive index different from the previous one issues exactly the entry
    commands of that step, in the order timer, probe target, grill target,
    smoke, keep-warm, shutdown, and nothing from the scan. It returns the
    index and records it as the previous one; if the step has [shutdown]
    equal to 1, the cool command is the last one issued and the evaluation
    returns 0 with index and previous index both 0. The steps are not
    written. *)
Theorem enter_step (gs : Snapshot) (self : t) (curstep : gmap string Z) :
  guard_exit self (Some gs) = false ->
  num_value self > 0 ->
  num_value self ≠ old_num_value self ->
  current_step self = Some curstep ->
  let out := native_value (Some gs) self in
  let v := if shuts_down curstep then 0 else num_value self in
  result out = Ok v
  /\ issued out = entry_calls (grill_id self) (num_value self) curstep gs
  /\ num_value (after out) = v
  /\ old_num_value (after out) = v
  /\ cook_cycle (after out) = cook_cycle self
  /\ (shuts_down curstep = true ->
      exists before,
        issued out
        = (before ++ [hvac_cool (grill_id self) (num_value self)])%list).
Proof.
  intros Hg Hpos Hne Hstep out v. subst out v.
  pose proof (on_new_step_intro _ Hpos Hne) as Hnew.
  destruct (guard_exit_false _ _ Hg) as (Hlen & _).
  rewrite (native_value_body gs self self [] Hg
             (scan_skipped gs self (on_same_step_new _ Hnew))).
  rewrite (implement_entering gs self curstep Hnew Hstep).
  cbn [app result after issued fst snd].
  destruct (shuts_down curstep) eqn:Hsd.
  - rewrite final_clamp_in_range by (cbn; lia). cbn.
    repeat (split; [reflexivity|]). intros _.
    unfold entry_calls. rewrite Hsd.
    eexists. rewrite !app_assoc. reflexivity.
  - rewrite final_clamp_in_range by exact Hlen. cbn.
    repeat (split; [reflexivity|]). discriminate.
Qed.

(** What the log of an evaluation consists of: at most the raised target
    from the scan, then the entry commands of at most one step. *)
Lemma issued_shape (self : t) (grill_state : option Snapshot) :
  exists log1 log2,
    issued (native_value grill_state self) = (log1 ++ log2)%list
    /\ (log1 = []
        \/ exists gs, grill_state = Some gs
             /\ guard_exit self grill_state = false
             /\ on_same_step self = true
             /\ log1 = [raise_target (grill_id self) (num_value self) gs])
    /\ (log2 = []
        \/ exists gs n curstep, grill_state = Some gs
             /\ guard_exit self grill_state = false
             /\ log2 = entry_calls (grill_id self) n curstep gs).
Proof.
  destruct (guard_exit self grill_state) eqn:Hg.
  - rewrite (native_value_guard _ _ Hg). exists [], [].
    split; [reflexivity|]. split; left; reflexivity.
  - destruct grill_state as [gs|]; [|discriminate].
    destruct (guard_exit_false _ _ Hg) as (Hlen & _).
    destruct (scan_spec gs self Hlen)
      as (self1 & log1 & Hscan & Hgid & _ & _ & _ & Hlog & Hskip).
    rewrite (native_value_body gs self self1 log1 Hg Hscan).
    assert (Hlog1 : log1 = []
              \/ exists gs', Some gs = Some gs'
                   /\ false = false
                   /\ on_same_step self = true
                   /\ log1 = [raise_target (grill_id self) (num_value self)
                                gs']).
    { destruct (on_same_step self) eqn:Hsame.
      - destruct Hlog as [-> | ->]; [left; reflexivity|].
        right. exists gs. repeat split.
      - left. apply Hskip. reflexivity. }
    destruct (on_new_step self1) eqn:Hnew.
    + destruct (Z_le_gt_dec (num_value self1)
                  (Z.of_nat (length (cook_cycle self1)))) as [Hin | Hpast].
      * destruct (on_new_step_true _ Hnew) as [Hpos _].
        destruct (current_step_is_Some self1) as [curstep Hstep]; [lia|].
        rewrite (implement_entering gs self1 curstep Hnew Hstep).
        exists log1, (entry_calls (grill_id self) (num_value self1) curstep gs).
        rewrite Hgid. split; [reflexivity|]. split; [exact Hlog1|].
        right. exists gs, (num_value self1), curstep. repeat split.
      * rewrite (implement_past_end gs self1 Hnew Hpast).
        exists log1, []. split; [reflexivity|]. split; [exact Hlog1|].
        left. reflexivity.
    + rewrite (implement_skipped gs self1 Hnew).
      exists log1, []. split; [reflexivity|]. split; [exact Hlog1|].
      left. reflexivity.
Qed.

(** X9. Commands are only issued while cooking on a step of the list: an
    evaluation that issues a call has a snapshot, an index between 1 and
    [len(cook_cycle)] and a mode outside cool-down, sleeping, shutdown and
    idle. With an index of 0 or below and a snapshot it returns the index
    and issues nothing. *)
Theorem calls_only_while_cooking (self : t)
    (grill_state : option Snapshot) :
  (issued (native_value grill_state self) ≠ [] ->
   exists gs, grill_state = Some gs
     /\ 0 < num_value self <= Z.of_nat (length (cook_cycle self))
     /\ gs_system_status gs ∉ not_cooking_modes)
  /\ (num_value self <= 0 ->
      issued (native_value grill_state self) = []
      /\ forall gs, grill_state = Some gs ->
           result (native_value grill_state self) = Ok (num_value self)).
Proof.
  assert (Hinert : num_value self <= 0 ->
            forall gs, native_value (Some gs) self
                       = (Ok (num_value self),
                          with_num_value (num_value self)
                            (with_old_num_value (num_value self) self),
                          [])).
  { intros Hn gs.
    assert (Hg : guard_exit self (Some gs) = false).
    { unfold guard_exit. rewrite !bool_decide_eq_false_2 by lia. reflexivity. }
    assert (Hsame : on_same_step self = false).
    { unfold on_same_step. rewrite bool_decide_eq_false_2 by lia. reflexivity. }
    assert (Hnew : on_new_step self = false).
    { unfold on_new_step. rewrite bool_decide_eq_false_2 by lia. reflexivity. }
    rewrite (native_value_body gs self self [] Hg (scan_skipped gs self Hsame)).
    rewrite (implement_skipped gs self Hnew).
    rewrite final_clamp_in_range by lia. reflexivity. }
  split.
  - intros Hsome. destruct (guard_exit self grill_state) eqn:Hg.
    { rewrite (native_value_guard _ _ Hg) in Hsome. contradiction. }
    destruct grill_state as [gs|]; [|discriminate].
    exists gs. split; [reflexivity|].
    destruct (guard_exit_false _ _ Hg) as (Hlen & _ & Hmode).
    destruct (Z_le_gt_dec (num_value self) 0) as [Hn | Hpos].
    { rewrite (Hinert Hn gs) in Hsome. contradiction. }
    split; [lia|].
    rewrite (bool_decide_eq_true_2 (num_value self > 0)) in Hmode by lia.
    exact (bool_decide_eq_false_1 _ Hmode).
  - intros Hn. destruct grill_state as [gs|].
    + rewrite (Hinert Hn gs). split; [reflexivity|]. intros _ _. reflexivity.
    + split; [reflexivity | discriminate].
Qed.

(** X10. [native_value] raises exactly when it passes the guards and the
    advance condition holds on the last step, and then it is [IndexError]:
    no other input makes it raise. *)
Theorem raises_exactly (self : t) (grill_state : option Snapshot)
    (e : Exn) :
  result (native_value grill_state self) = Raise e
  <-> e = IndexError
      /\ exists gs, grill_state = Some gs
           /\ guard_exit self grill_state = false
           /\ advances self gs = true
           /\ num_value self = Z.of_nat (length (cook_cycle self)).
Proof.
  destruct (guard_exit self grill_state) eqn:Hg.
  - rewrite (native_value_guard _ _ Hg). cbn. split; [discriminate|].
    intros (_ & gs & _ & [=] & _).
  - destruct grill_state as [gs|]; [|discriminate].
    destruct (guard_exit_false _ _ Hg) as (Hlen & _).
    destruct (native_value_spec gs self Hg)
      as (self1 & log1 & _ & Hold & Hcc & Hnum & _ & Hend).
    destruct (advances self gs) eqn:Hadv; cbn iota in Hnum.
    + destruct (advances_true _ _ Hadv) as [Hpos Hsame].
      assert (Hnew : on_new_step self1 = true)
        by (apply on_new_step_intro; lia).
      destruct Hend as [(Hno & _) | [(_ & Hpast & ->) | (_ & Hin & Hend)]].
      * congruence.
      * cbn. split.
        -- intros [= <-]. split; [reflexivity|]. exists gs.
           repeat split; [exact Hadv | lia].
        -- intros [-> _]. reflexivity.
      * destruct Hend as (self2 & log2 & _ & _ & ->). cbn.
        split; [discriminate|].
        intros (_ & gs' & _ & _ & _ & Hlast). lia.
    + assert (Hok : exists v s l, native_value (Some gs) self = (Ok v, s, l)).
      { destruct Hend as [(_ & ->) | [(_ & Hpast & _) | (_ & _ & Hend)]].
        - eauto.
        - lia.
        - destruct Hend as (self2 & log2 & _ & _ & ->). eauto. }
      destruct Hok as (v & s & l & ->). cbn. split; [discriminate|].
      intros (_ & gs' & [= <-] & _ & Hadv' & _). congruence.
Qed.

(** X11. After such an [IndexError] the index is one past the end and the
    previous index is still the last step. The evaluation that follows, on
    any snapshot or none, returns 0, resets the index and issues nothing: the
    cycle ends, with the previous index left on the last step. *)
Theorem recovers_after_raise (self : t) (grill_state : option Snapshot)
    (e : Exn) :
  result (native_value grill_state self) = Raise e ->
  let broken := after (native_value grill_state self) in
  num_value broken = Z.of_nat (length (cook_cycle broken)) + 1
  /\ old_num_value broken = Z.of_nat (length (cook_cycle broken))
  /\ forall grill_state' : option Snapshot,
       native_value grill_state' broken
       = (Ok 0, with_num_value 0 broken, []).
Proof.
  intros Hraise broken.
  destruct (guard_exit self grill_state) eqn:Hg.
  { rewrite (native_value_guard _ _ Hg) in Hraise. discriminate. }
  destruct grill_state as [gs|]; [|discriminate].
  destruct (guard_exit_false _ _ Hg) as (Hlen & _).
  destruct (native_value_spec gs self Hg)
    as (self1 & log1 & _ & Hold & Hcc & Hnum & _ & Hend).
  subst broken. revert Hraise.
  destruct Hend as [(_ & ->) | [(Hnew & Hpast & ->) | (_ & _ & Hend)]];
    [discriminate| |destruct Hend as (self2 & log2 & _ & _ & ->); discriminate].
  intros _. cbn [after fst snd].
  assert (Hadv : advances self gs = true).
  { destruct (advances self gs); [reflexivity | lia]. }
  destruct (advances_true _ _ Hadv) as [Hpos Hsame].
  rewrite Hadv in Hnum. split; [lia|]. split; [lia|].
  intros grill_state'. apply native_value_guard.
  unfold guard_exit. destruct grill_state'; [|reflexivity].
  rewrite (bool_decide_eq_true_2 (num_value self1 > _)) by lia. reflexivity.
Qed.

(** X12. An evaluation that passes the guards and returns a value leaves
    the index and the previous index both equal to that value, which is at
    most [len(cook_cycle)] and is the index it started from, that index plus
    one, or 0; the index moves by one only when the advance condition holds.
    So the out-of-range branch of lines 250-252 is never taken. *)
Theorem returns_recorded_index (self : t) (gs : Snapshot) (v : Z) :
  guard_exit self (Some gs) = false ->
  result (native_value (Some gs) self) = Ok v ->
  let self' := after (native_value (Some gs) self) in
  num_value self' = v
  /\ old_num_value self' = v
  /\ v <= Z.of_nat (length (cook_cycle self'))
  /\ (v = num_value self
      \/ (v = num_value self + 1 /\ advances self gs = true)
      \/ v = 0).
Proof.
  intros Hg Hv self'. subst self'.
  destruct (guard_exit_false _ _ Hg) as (Hlen & _).
  destruct (native_value_spec gs self Hg)
    as (self1 & log1 & _ & Hold & Hcc & Hnum & _ & Hend).
  revert Hv.
  destruct Hend as [(Hno & ->) | [(_ & _ & ->) | (_ & Hin & Hend)]].
  - assert (Hadv : advances self gs = false).
    { destruct (advances self gs) eqn:Hadv; [|reflexivity].
      destruct (advances_true _ _ Hadv) as [Hpos Hsame].
      rewrite on_new_step_intro in Hno by lia. discriminate. }
    rewrite Hadv in Hnum.
    rewrite final_clamp_in_range by lia. cbn. intros [= <-].
    repeat split; try reflexivity; lia.
  - discriminate.
  - destruct Hend as (self2 & log2 & (_ & _ & Hcc2 & Hnum2) & _ & ->).
    rewrite final_clamp_in_range by (rewrite Hcc2; lia). cbn. intros [= <-].
    split; [reflexivity|]. split; [reflexivity|].
    split; [rewrite Hcc2; lia|].
    destruct Hnum2 as [-> | ->]; [|right; right; reflexivity].
    rewrite Hnum. destruct (advances self gs);
      [right; left; split; reflexivity | left; reflexivity].
Qed.

End WithConsts.

(** Entering the last of two steps, which sets the grill target and shuts
    down. *)
Lemma enter_step_witness :
  result (native_value (H := sample_consts) (Some (cooking 0)) entering_last)
  = Ok 0.
Proof.
  refine (proj1 (@enter_step sample_consts (cooking 0) entering_last
                   (<[ "set_temp" := 225 ]> {[ "shutdown" := 1 ]})
                   _ _ _ _)).
  - reflexivity.
  - reflexivity.
  - discriminate.
  - reflexivity.
Defined.

Lemma calls_only_while_cooking_witness :
  exists gs, Some (cooking 0) = Some gs
    /\ 0 < num_value entering_last
        <= Z.of_nat (length (cook_cycle entering_last))
    /\ gs_system_status gs ∉ not_cooking_modes (H := sample_consts).
Proof.
  apply (proj1 (@calls_only_while_cooking sample_consts entering_last
                  (Some (cooking 0)))).
  discriminate.
Defined.

(** The timer completes on the only step of a cycle. *)
Lemma raises_exactly_witness :
  IndexError = IndexError
  /\ exists gs, Some (cooking 1) = Some gs
       /\ guard_exit (H := sample_consts) on_last_step (Some (cooking 1))
          = false
       /\ advances on_last_step gs = true
       /\ num_value on_last_step
          = Z.of_nat (length (cook_cycle on_last_step)).
Proof.
  apply (proj1 (@raises_exactly sample_consts on_last_step
                  (Some (cooking 1)) IndexError)).
  reflexivity.
Defined.

Lemma recovers_after_raise_witness :
  native_value (H := sample_consts) None
    (after (native_value (H := sample_consts) (Some (cooking 1))
              on_last_step))
  = (Ok 0,
     with_num_value 0
       (after (native_value (H := sample_consts) (Some (cooking 1))
                 on_last_step)),
     []).
Proof.
  refine (proj2 (proj2 (@recovers_after_raise sample_consts on_last_step
                          (Some (cooking 1)) IndexError _)) None).
  reflexivity.
Defined.

(** On step 1 of two with the timer still running. *)
Lemma returns_recorded_index_witness :
  old_num_value
    (after (native_value (H := sample_consts) (Some (cooking 0))
              on_first_step)) = 1.
Proof.
  refine (proj1 (proj2 (@returns_recorded_index sample_consts on_first_step
                          (cooking 0) 1 _ _))); reflexivity.
Defined.

End CookCycMore.

(** ** [CookCycNumberEntity]: switches, steps and reloads *)

Module CookCycSteps.
Import CookCycNumberEntity CookCycSpec CookCycMoreSpec CookCycFacts
  CookCycMore.
Local Open Scope py_scope.

#[local] Existing Instance kept_or_reset_preorder.

Section WithConsts.
Context `{GrillConsts}.

(** The switch commands among the entry commands of a step. *)
Lemma entry_calls_switch (gid : string) (n : Z) (curstep : gmap string Z)
    (gs : Snapshot) (e : Issued) :
  e ∈ entry_calls gid n curstep gs ->
  domain (issued_call e) = "switch" ->
  (service (issued_call e) = "turn_on"
   \/ service (issued_call e) = "turn_off")
  /\ ((service_data (issued_call e)
       = [("entity_id", VStr ("switch." ++ gid ++ "_smoke"))]
       /\ super_smoke_enabled gs = 1
       /\ gs_set gs <= 225
       /\ (service (issued_call e) = "turn_on" -> gs_smoke gs ≠ 1))
      \/ (service_data (issued_call e)
          = [("entity_id", VStr ("switch." ++ gid ++ "_keepwarm"))]
          /\ (service (issued_call e) = "turn_on" -> gs_keepwarm gs ≠ 1))).
Proof.
  unfold entry_calls. rewrite !elem_of_app.
  intros [Hin | [Hin | [Hin | [Hin | [Hin | Hin]]]]] Hdomain.
  - unfold timer_call in Hin. destruct (curstep !! "time_set");
      [|elems; contradiction].
    elems. destruct Hin as [-> | []]. discriminate.
  - unfold probe_target_call in Hin. destruct (curstep !! "probe_set_temp");
      [|elems; contradiction].
    elems. destruct Hin as [-> | []]. discriminate.
  - unfold grill_target_call in Hin. destruct (curstep !! "set_temp");
      [|elems; contradiction].
    elems. destruct Hin as [-> | []]. discriminate.
  - unfold smoke_call in Hin. destruct (curstep !! "smoke") as [smoke|];
      [|elems; contradiction].
    destruct (_ && _) eqn:Hcond; [|elems; contradiction].
    apply andb_true_iff in Hcond as [Hcond Hlow].
    apply andb_true_iff in Hcond as [Hon Hdiff].
    apply bool_decide_eq_true_1 in Hlow, Hon, Hdiff.
    elems. destruct Hin as [-> | []]. cbn.
    destruct (bool_decide (smoke = 1)) eqn:Hone.
    + apply bool_decide_eq_true_1 in Hone. subst smoke.
      split; [left; reflexivity|]. left.
      split; [reflexivity|]. split; [exact Hon|]. split; [exact Hlow|].
      intros _. exact Hdiff.
    + split; [right; reflexivity|]. left.
      split; [reflexivity|]. split; [exact Hon|]. split; [exact Hlow|].
      discriminate.
  - unfold keepwarm_call in Hin.
    destruct (curstep !! "keepwarm") as [keepwarm|]; [|elems; contradiction].
    destruct (bool_decide (gs_keepwarm gs ≠ keepwarm)) eqn:Hdiff;
      [|elems; contradiction].
    apply bool_decide_eq_true_1 in Hdiff.
    elems. destruct Hin as [-> | []]. cbn.
    destruct (bool_decide (keepwarm = 1)) eqn:Hone.
    + apply bool_decide_eq_true_1 in Hone. subst keepwarm.
      split; [left; reflexivity|]. right. split; [reflexivity|].
      intros _. exact Hdiff.
    + split; [right; reflexivity|]. right. split; [reflexivity|].
      discriminate.
  - destruct (shuts_down curstep); elems; [|contradiction].
    destruct Hin as [-> | []]. discriminate.
Qed.

(** X13. A switch is only commanded from a snapshot that asks for it: every
    switch command an evaluation issues is a turn-on or turn-off of the
    smoke or the keep-warm switch of this grill; a smoke command needs super
    smoke enabled and a grill target of at most 225; and neither switch is
    turned on when the snapshot reports it on already. *)
Theorem switch_calls_guarded (self : t) (grill_state : option Snapshot)
    (e : Issued) :
  e ∈ issued (native_value grill_state self) ->
  domain (issued_call e) = "switch" ->
  exists gs, grill_state = Some gs
    /\ (service (issued_call e) = "turn_on"
        \/ service (issued_call e) = "turn_off")
    /\ ((service_data (issued_call e)
         = [("entity_id", VStr ("switch." ++ grill_id self ++ "_smoke"))]
         /\ super_smoke_enabled gs = 1
         /\ gs_set gs <= 225
         /\ (service (issued_call e) = "turn_on" -> gs_smoke gs ≠ 1))
        \/ (service_data (issued_call e)
            = [("entity_id",
                VStr ("switch." ++ grill_id self ++ "_keepwarm"))]
            /\ (service (issued_call e) = "turn_on"
                -> gs_keepwarm gs ≠ 1))).
Proof.
  intros Hin Hdomain.
  destruct (issued_shape self grill_state)
    as (log1 & log2 & Hlog & Hlog1 & Hlog2).
  rewrite Hlog in Hin. apply elem_of_app in Hin as [Hin | Hin].
  - destruct Hlog1 as [-> | (gs & _ & _ & _ & ->)]; elems;
      [contradiction|]. destruct Hin as [-> | []]. discriminate.
  - destruct Hlog2 as [-> | (gs & n & curstep & -> & _ & ->)];
      [elems; contradiction|].
    exists gs. split; [reflexivity|].
    exact (entry_calls_switch _ _ _ _ _ Hin Hdomain).
Qed.

(** The only write of the in-step change to the steps. *)
Lemma in_step_change_steps (n : Z) (curstep : gmap string Z) (gs : Snapshot)
    (self : t) :
  exists self' log,
    in_step_change n curstep gs self = (Ok tt, self', log)
    /\ (cook_cycle self' = cook_cycle self
        \/ (is_Some (curstep !! "min_delta")
            /\ exists limit, curstep !! "max_grill_delta_temp" = Some limit
                 /\ limit > max_grill_temp gs
                 /\ cook_cycle self'
                    = <[Z.to_nat (n - 1) :=
                          <["max_grill_delta_temp" := max_grill_temp gs]>
                            curstep]> (cook_cycle self))).
Proof.
  unfold in_step_change. rewrite bind_get_self.
  destruct (curstep !! "min_delta") as [min_delta|];
    [|exists self, []; split; [reflexivity | left; reflexivity]].
  destruct (curstep !! "max_grill_delta_temp") as [limit|];
    [|exists self, []; split; [reflexivity | left; reflexivity]].
  destruct (bool_decide (limit > max_grill_temp gs)) eqn:Hover.
  - apply bool_decide_eq_true_1 in Hover.
    assert (Hset : setitem_curstep (n - 1) curstep "max_grill_delta_temp"
                     (max_grill_temp gs) self
                   = (Ok tt,
                      with_cook_cycle
                        (<[Z.to_nat (n - 1) :=
                             <["max_grill_delta_temp" := max_grill_temp gs]>
                               curstep]> (cook_cycle self)) self,
                      [])).
    { unfold setitem_curstep. rewrite bind_get_self. reflexivity. }
    rewrite (bind_runs _ _ _ _ _ Hset).
    unfold result, after, issued.
    destruct (bool_decide (gs_set gs < max_grill_temp gs));
      [destruct (bool_decide (gs_probe gs > gs_set gs - min_delta))|];
      cbn; eexists _, _; (split; [reflexivity|]); right;
      (split; [eexists; reflexivity|]); exists limit;
      repeat split; exact Hover.
  - rewrite bind_pass.
    destruct (bool_decide (gs_set gs < limit));
      [destruct (bool_decide (gs_probe gs > gs_set gs - min_delta))|];
      eexists _, _; (split; [reflexivity|]); left; reflexivity.
Qed.

(** The scan on the step of the previous evaluation. *)
Lemma scan_steps (gs : Snapshot) (self : t) :
  on_same_step self = true ->
  num_value self <= Z.of_nat (length (cook_cycle self)) ->
  exists curstep self1 log1,
    current_step self = Some curstep
    /\ scan_for_next_step_advance gs self = (Ok tt, self1, log1)
    /\ (cook_cycle self1 = cook_cycle self
        \/ (is_Some (curstep !! "min_delta")
            /\ exists limit, curstep !! "max_grill_delta_temp" = Some limit
                 /\ limit > max_grill_temp gs
                 /\ cook_cycle self1
                    = <[Z.to_nat (num_value self - 1) :=
                          <["max_grill_delta_temp" := max_grill_temp gs]>
                            curstep]> (cook_cycle self))).
Proof.
  intros Hsame Hlen. destruct (on_same_step_true _ Hsame) as [Hpos _].
  destruct (current_step_is_Some self) as [curstep Hstep]; [lia|].
  exists curstep. unfold scan_for_next_step_advance.
  rewrite bind_get_self, Hsame, (getitem_current _ _ Hpos Hstep), bind_lift_Ok.
  destruct (advance_due curstep gs).
  - rewrite bind_set_num_value.
    destruct (in_step_change_steps (num_value self) curstep gs
                (with_num_value (num_value self + 1) self))
      as (self1 & log1 & -> & Hsteps).
    exists self1, log1. split; [exact Hstep|]. split; [reflexivity|].
    exact Hsteps.
  - rewrite bind_pass.
    destruct (in_step_change_steps (num_value self) curstep gs self)
      as (self1 & log1 & -> & Hsteps).
    exists self1, log1. split; [exact Hstep|]. split; [reflexivity|].
    exact Hsteps.
Qed.



End WithConsts.

(** Entering a step that wants super smoke on, from a snapshot that reports
    it off. *)
Lemma switch_calls_guarded_witness :
  exists gs, Some (cooking 0) = Some gs
    /\ ("turn_on" = "turn_on" \/ "turn_on" = "turn_off")
    /\ (([("entity_id", VStr "switch.grill_smoke")]
         = [("entity_id", VStr ("switch." ++ "grill" ++ "_smoke"))]
         /\ super_smoke_enabled gs = 1
         /\ gs_set gs <= 225
         /\ ("turn_on" = "turn_on" -> gs_smoke gs ≠ 1))
        \/ ([("entity_id", VStr "switch.grill_smoke")]
            = [("entity_id", VStr ("switch." ++ "grill" ++ "_keepwarm"))]
            /\ ("turn_on" = "turn_on" -> gs_keepwarm gs ≠ 1))).
Proof.
  apply (@switch_calls_guarded sample_consts entering_smoke
           (Some (cooking 0))
           (logged ImplementStep 1 "switch" "turn_on"
              [("entity_id", VStr "switch.grill_smoke")])).
  - vm_compute. apply list_elem_of_here.
  - reflexivity.
Defined.

End CookCycSteps.

(** ** [CookCycNumberEntity]: reloading the cycle and advancing *)

Module CookCycAdvance.
Import CookCycNumberEntity CookCycSpec CookCycMoreSpec CookCycFacts
  CookCycMore CookCycSteps.
Local Open Scope py_scope.

Section WithConsts.
Context `{GrillConsts}.

(** X15. [set_custom_cook] replaces the steps and leaves the index and the
    previous index as they are. If the index is past the end of the new
    list, the next evaluation returns 0, resets the index and issues
    nothing. If the index equals the previous index, the next evaluation
    issues no entry command of the step now at that index: the replaced
    step is never entered. *)
Theorem reload_keeps_position (self : t) (steps : list (gmap string Z)) :
  let self' := after (set_custom_cook steps self) in
  num_value self' = num_value self
  /\ old_num_value self' = old_num_value self
  /\ cook_cycle self' = steps
  /\ (forall grill_state : option Snapshot,
        num_value self > Z.of_nat (length steps) ->
        native_value grill_state self' = (Ok 0, with_num_value 0 self', []))
  /\ (forall grill_state : option Snapshot,
        num_value self = old_num_value self ->
        Forall (fun e => ~ issued_from ImplementStep (num_value self) e)
          (issued (native_value grill_state self'))).
Proof.
  intros self'. subst self'. cbn [after set_custom_cook set_cook_cycle fst snd].
  repeat (split; [reflexivity|]). split.
  - intros grill_state Hpast. apply native_value_guard.
    unfold guard_exit. destruct grill_state; [|reflexivity].
    cbn. rewrite (bool_decide_eq_true_2 _ Hpast). reflexivity.
  - intros grill_state Hsame.
    destruct (same_step_issued (with_cook_cycle steps self) grill_state Hsame)
      as (Hfrom & _).
    eapply Forall_impl; [exact Hfrom|]. cbn.
    intros e [[Hby _] | [_ Hstep]] [Hby' Hstep']; [congruence | lia].
Qed.

Lemma truthy_true (v : Z) : truthy v = true <-> v ≠ 0.
Proof.
  unfold truthy. destruct (Z.eqb_spec v 0); cbn; split; intros;
    congruence || tauto.
Qed.

(** The advance condition of the code, in words of the step's entries. *)
Lemma advance_due_rule (curstep : gmap string Z) (gs : Snapshot) :
  advance_due curstep gs = true <-> advance_rule curstep gs.
Proof.
  unfold advance_due, advance_rule.
  destruct (curstep !! "use_timer") as [use_timer|].
  - rewrite andb_true_iff, !truthy_true. reflexivity.
  - destruct (truthy (gs_probe_alarm_fired gs)) eqn:Halarm.
    + apply truthy_true in Halarm. tauto.
    + assert (Hz : ~ gs_probe_alarm_fired gs ≠ 0).
      { intros Hnz. apply truthy_true in Hnz. congruence. }
      destruct (curstep !! "act_temp_adv") as [adv|].
      * rewrite bool_decide_eq_true. split.
        -- intros Hgt. right. left. exists adv. split; [reflexivity | exact Hgt].
        -- intros [Hnz | [(v & [= <-] & Hgt) | ([=] & _)]]; tauto.
      * destruct (curstep !! "probe_act_temp_adv") as [adv|].
        -- rewrite bool_decide_eq_true. split.
           ++ intros Hgt. right. right. split; [reflexivity|].
              exists adv. split; [reflexivity | exact Hgt].
           ++ intros [Hnz | [(v & [=] & _) | (_ & v & [= <-] & Hgt)]]; tauto.
        -- split; [discriminate|].
           intros [Hnz | [(v & [=] & _) | (_ & v & [=] & _)]]. tauto.
Qed.

Lemma advances_current (self : t) (gs : Snapshot)
    (curstep : gmap string Z) :
  on_same_step self = true ->
  current_step self = Some curstep ->
  advances self gs = advance_due curstep gs.
Proof.
  intros Hsame Hstep. destruct (on_same_step_true _ Hsame) as [Hpos _].
  unfold advances. rewrite Hsame, (getitem_current _ _ Hpos Hstep).
  reflexivity.
Qed.

(** X16. On the step of the previous evaluation, past the guards: the index
    advances exactly when the step's advance condition holds. A step with a
    [use_timer] entry advances only on a true [use_timer] and a completed
    timer, whatever alarms and temperatures are; without one, a fired probe
    alarm advances, else [act_temp_adv] if present decides alone, else
    [probe_act_temp_adv]. Without an advance the evaluation returns the
    index and issues at most the raised target. With an advance and a next
    step in the list, that step is entered in the same evaluation: its entry
    commands follow the scan's, and the returned value is the next index, or
    0 if that step shuts down. *)
Theorem advance_and_enter (gs : Snapshot) (self : t)
    (curstep : gmap string Z) :
  guard_exit self (Some gs) = false ->
  on_same_step self = true ->
  current_step self = Some curstep ->
  let out := native_value (Some gs) self in
  let n := num_value self in
  (~ advance_rule curstep gs ->
     result out = Ok n
     /\ num_value (after out) = n
     /\ old_num_value (after out) = n
     /\ (issued out = []
         \/ issued out = [raise_target (grill_id self) n gs]))
  /\ (advance_rule curstep gs ->
      forall nextstep : gmap string Z,
        cook_cycle self !! Z.to_nat n = Some nextstep ->
        let v := if shuts_down nextstep then 0 else n + 1 in
        result out = Ok v
        /\ num_value (after out) = v
        /\ old_num_value (after out) = v
        /\ exists scanned,
             (scanned = []
              \/ scanned = [raise_target (grill_id self) n gs])
             /\ issued out
                = (scanned
                   ++ entry_calls (grill_id self) (n + 1) nextstep gs)%list).
Proof.
  intros Hg Hsame Hstep out n. subst out n.
  destruct (on_same_step_true _ Hsame) as [Hpos Hold0].
  destruct (guard_exit_false _ _ Hg) as (Hlen & _).
  destruct (scan_spec gs self Hlen)
    as (self1 & log1 & Hscan & Hgid & Hold & Hcc & Hnum & Hlog & _).
  rewrite (advances_current self gs curstep Hsame Hstep) in Hnum.
  rewrite (native_value_body gs self self1 log1 Hg Hscan).
  split.
  - intros Hno. rewrite <- advance_due_rule in Hno.
    destruct (advance_due curstep gs); [exfalso; apply Hno; reflexivity|].
    rewrite (implement_skipped gs self1) by (apply on_new_step_same; lia).
    rewrite final_clamp_in_range by lia. cbn. rewrite app_nil_r.
    repeat (split; [assumption || (f_equal; assumption)|]). exact Hlog.
  - intros Hyes nextstep Hnext v. subst v.
    apply advance_due_rule in Hyes. rewrite Hyes in Hnum.
    assert (Hnew : on_new_step self1 = true)
      by (apply on_new_step_intro; lia).
    assert (Hstep1 : current_step self1 = Some nextstep).
    { unfold current_step. rewrite Hnum.
      replace (num_value self + 1 - 1) with (num_value self) by lia.
      destruct (scan_steps gs self Hsame Hlen)
        as (curstep' & self1' & log1' & _ & Hscan' & Hsteps).
      rewrite Hscan in Hscan'. injection Hscan' as <- <-.
      destruct Hsteps as [-> | (_ & limit & _ & _ & ->)]; [exact Hnext|].
      rewrite list_lookup_insert_ne by lia. exact Hnext. }
    rewrite (implement_entering gs self1 nextstep Hnew Hstep1).
    pose proof (lookup_lt_Some _ _ _ Hnext) as Hlt.
    rewrite Hgid, Hnum.
    destruct (shuts_down nextstep).
    + rewrite final_clamp_in_range by (cbn; lia). cbn.
      repeat (split; [reflexivity|]). exists log1. split; [exact Hlog | reflexivity].
    + rewrite final_clamp_in_range by lia. cbn.
      repeat (split; [assumption || (f_equal; assumption)|]).
      exists log1. split; [exact Hlog | reflexivity].
Qed.

End WithConsts.

(** On step 1 of two, the cycle replaced by an empty one. *)
Lemma reload_keeps_position_witness :
  native_value (H := sample_consts) (Some (cooking 0))
    (after (set_custom_cook [] on_first_step))
  = (Ok 0, with_num_value 0 (after (set_custom_cook [] on_first_step)), []).
Proof.
  apply (proj1 (proj2 (proj2 (proj2
           (@reload_keeps_position sample_consts on_first_step []))))).
  reflexivity.
Defined.

(** On step 1 of two when the timer completes: step 2 is entered. *)
Lemma advance_and_enter_witness :
  result (native_value (H := sample_consts) (Some (cooking 1)) on_first_step)
  = Ok 2.
Proof.
  refine (proj1 (proj2 (@advance_and_enter sample_consts (cooking 1)
                          on_first_step {[ "use_timer" := 1 ]} _ _ _)
                   _ {[ "time_set" := 600 ]} _)).
  - reflexivity.
  - reflexivity.
  - reflexivity.
  - split; discriminate.
  - reflexivity.
Defined.

End CookCycAdvance.

(** ** [CookCycNumberEntity.state_attributes] *)

Module StateAttributesFacts.
Import CookCycNumberEntity CookCycSpec CookCycMoreSpec CookCycFacts.

Section WithStr.
Context (str_step : gmap string Z -> string).

(** [l[i]] succeeds exactly for [-len(l) <= i < len(l)]. *)
Lemma getitem_cases {A : Type} (l : list A) (i : Z) :
  (- Z.of_nat (length l) <= i < Z.of_nat (length l)
   /\ exists x, getitem l i = Ok x)
  \/ ((i < - Z.of_nat (length l) \/ Z.of_nat (length l) <= i)
      /\ getitem l i = Raise IndexError).
Proof.
  unfold getitem. destruct (bool_decide (i < 0)) eqn:Hneg.
  - apply bool_decide_eq_true_1 in Hneg.
    destruct (bool_decide (0 <= i + _ < _)) eqn:Hin.
    + apply bool_decide_eq_true_1 in Hin. left. split; [lia|].
      destruct (lookup_lt_is_Some_2 l (Z.to_nat (i + Z.of_nat (length l))))
        as [x ->]; [lia|]. eauto.
    + apply bool_decide_eq_false_1 in Hin. right. split; [lia | reflexivity].
  - apply bool_decide_eq_false_1 in Hneg.
    destruct (bool_decide (0 <= i < _)) eqn:Hin.
    + apply bool_decide_eq_true_1 in Hin. left. split; [lia|].
      destruct (lookup_lt_is_Some_2 l (Z.to_nat i)) as [x ->]; [lia|]. eauto.
    + apply bool_decide_eq_false_1 in Hin. right. split; [lia | reflexivity].
Qed.

Lemma describe_step_cases (self : t) (n i : Z) :
  (- Z.of_nat (length (cook_cycle self)) <= i
     < Z.of_nat (length (cook_cycle self))
   /\ exists step, getitem (cook_cycle self) i = Ok step
        /\ describe_step str_step self n i
           = Ok (pretty n ++ ": " ++ str_step step))
  \/ ((i < - Z.of_nat (length (cook_cycle self))
       \/ Z.of_nat (length (cook_cycle self)) <= i)
      /\ describe_step str_step self n i = Raise IndexError).
Proof.
  unfold describe_step.
  destruct (getitem_cases (cook_cycle self) i) as [[Hi [x Hx]] | [Hi Hx]];
    rewrite Hx; [left | right]; split; eauto.
Qed.

(** The loop of lines 283-286 only writes keys that start with [_step]. *)
Lemma add_steps_other (steps : list (gmap string Z)) (intstep : Z)
    (attrs : gmap string string) (key : string) :
  (forall suffix, key ≠ "_step" ++ suffix) ->
  add_steps str_step steps intstep attrs !! key = attrs !! key.
Proof.
  intros Hkey. revert intstep attrs.
  induction steps as [|step steps IH]; intros intstep attrs; [reflexivity|].
  cbn [add_steps]. rewrite IH. apply lookup_insert_ne. intros Heq.
  exact (Hkey _ (eq_sym Heq)).
Qed.

(** X17. [state_attributes] raises exactly when the index is past the end
    of the list or below minus its length, and then it is [IndexError].
    With the index on a step, its [curr_step] entry shows the index and that
    step; with index 0 the [prev_step] and [curr_step] entries show an empty
    dict. *)
Theorem state_attributes_outcome (self : t) :
  (forall e : Exn,
     state_attributes str_step self = Raise e
     <-> e = IndexError
         /\ (num_value self > Z.of_nat (length (cook_cycle self))
             \/ num_value self < - Z.of_nat (length (cook_cycle self))))
  /\ (forall curstep : gmap string Z,
        num_value self > 0 ->
        current_step self = Some curstep ->
        exists attrs,
          state_attributes str_step self = Ok attrs
          /\ attrs !! "curr_step"
             = Some (pretty (num_value self) ++ ": " ++ str_step curstep))
  /\ (num_value self = 0 ->
      exists attrs,
        state_attributes str_step self = Ok attrs
        /\ attrs !! "prev_step" = Some "{}"
        /\ attrs !! "curr_step" = Some "{}").
Proof.
  set (n := num_value self). set (len := Z.of_nat (length (cook_cycle self))).
  assert (Hprev : "prev_step" ≠ "curr_step") by discriminate.
  assert (Hnext : "next_step" ≠ "curr_step") by discriminate.
  assert (Hnext' : "next_step" ≠ "prev_step") by discriminate.
  assert (Hcurr' : "curr_step" ≠ "prev_step") by discriminate.
  assert (Hkc : forall suffix, "curr_step" ≠ "_step" ++ suffix)
    by (intros suffix; discriminate).
  assert (Hkp : forall suffix, "prev_step" ≠ "_step" ++ suffix)
    by (intros suffix; discriminate).
  split; [|split].
  - intros e. unfold state_attributes. fold n len.
    destruct (describe_step_cases self (n - 1) (n - 2))
      as [[Hi1 (s1 & _ & E1)] | [Hi1 E1]];
      destruct (describe_step_cases self n (n - 1))
        as [[Hi2 (s2 & _ & E2)] | [Hi2 E2]];
      destruct (describe_step_cases self (n + 1) n)
        as [[Hi3 (s3 & _ & E3)] | [Hi3 E3]];
      fold len in Hi1, Hi2, Hi3;
      rewrite ?E1, ?E2, ?E3;
      repeat case_bool_decide;
      (split; [intros [= <-] | intros [-> Hout]]);
      first [reflexivity | lia | split; [reflexivity | lia] | idtac].
  - intros curstep Hpos Hstep. unfold state_attributes. fold n len.
    pose proof (lookup_lt_Some _ _ _ Hstep) as Hlt.
    assert (Hn : 0 < n <= len) by (subst n len; lia).
    assert (Hget : getitem (cook_cycle self) (n - 1) = Ok curstep).
    { destruct (getitem_in_range (cook_cycle self) (n - 1)) as (x & -> & Hx);
        [subst n len; lia|].
      unfold current_step in Hstep. fold n in Hstep. congruence. }
    assert (Hcur : describe_step str_step self n (n - 1)
                   = Ok (pretty n ++ ": " ++ str_step curstep)).
    { unfold describe_step. rewrite Hget. reflexivity. }
    rewrite (bool_decide_eq_true_2 (n > 0)) by lia. rewrite Hcur.
    destruct (describe_step_cases self (n - 1) (n - 2))
      as [[Hi1 (s1 & _ & E1)] | [Hi1 E1]];
      destruct (describe_step_cases self (n + 1) n)
        as [[Hi3 (s3 & _ & E3)] | [Hi3 E3]];
      fold len in Hi1, Hi3; rewrite ?E1, ?E3;
      repeat case_bool_decide; try lia;
      eexists; (split; [reflexivity|]);
      rewrite add_steps_other by exact Hkc;
      rewrite lookup_insert_ne by exact Hnext;
      apply lookup_insert_eq.
  - intros Hzero. unfold state_attributes. fold n len.
    rewrite (bool_decide_eq_false_2 (n > 1)) by (subst n; lia).
    rewrite (bool_decide_eq_false_2 (n > 0)) by (subst n; lia).
    destruct (describe_step_cases self (n + 1) n)
      as [[Hi3 (s3 & _ & E3)] | [Hi3 E3]];
      fold len in Hi3; rewrite ?E3;
      case_bool_decide; try (subst n len; lia);
      eexists; (split; [reflexivity|]);
      rewrite !add_steps_other by assumption;
      (split; [rewrite lookup_insert_ne by exact Hnext';
               rewrite lookup_insert_ne by exact Hcurr';
               apply lookup_insert_eq
              |rewrite lookup_insert_ne by exact Hnext;
               apply lookup_insert_eq]).
Qed.

End WithStr.

(** On step 2 of two, every step rendered as the same text. *)
Lemma state_attributes_outcome_witness :
  exists attrs,
    state_attributes (fun _ => "step") entering_last = Ok attrs
    /\ attrs !! "curr_step" = Some "2: step".
Proof.
  apply (proj1 (proj2 (@state_attributes_outcome (fun _ => "step")
                         entering_last))
           (<[ "set_temp" := 225 ]> {[ "shutdown" := 1 ]})).
  - reflexivity.
  - reflexivity.
Defined.

End StateAttributesFacts.

(** ** [TraegerNumberEntity]: what the timer is set to *)

Module TimerFacts.
Import TraegerNumberEntity.

Lemma round_between (x : Q) : Qfloor x <= round x <= Qfloor x + 1.
Proof.
  unfold round. destruct (_ ?= _)%Q; [destruct (Z.even _)| |]; lia.
Qed.

Lemma round_ge (x : Q) (n : Z) : (inject_Z n <= x)%Q -> n <= round x.
Proof.
  intros Hx. pose proof (round_between x) as [Hlo _].
  assert (n <= Qfloor x); [|lia].
  rewrite <- (Qfloor_Z n). apply Qfloor_resp_le. exact Hx.
Qed.

Lemma round_le (x : Q) (n : Z) : (x <= inject_Z n)%Q -> round x <= n.
Proof.
  intros Hx. pose proof (round_between x) as [_ Hhi].
  assert (Hfloor : Qfloor x <= n).
  { rewrite <- (Qfloor_Z n). apply Qfloor_resp_le. exact Hx. }
  destruct (Z_lt_le_dec (Qfloor x) n) as [Hlt | Hge]; [lia|].
  assert (Heq : Qfloor x = n) by lia.
  unfold round. rewrite Heq.
  assert (Hhalf : (x - inject_Z n < 1 # 2)%Q) by lra.
  rewrite (proj1 (Qlt_alt _ _) Hhalf). lia.
Qed.

Section WithConsts.
Context `{GrillConsts}.

(** X18. Setting the timer makes at most one client call, for this grill.
    A timer that is set is set to a whole number of minutes, at least one:
    the value was at least 1 and the seconds are [60 * round(value)], at
    least 60, and at most 86400 for a value within the declared maximum of
    1440. A reset is only made for a value below 1. *)
Theorem timer_whole_minutes (grill_id : string)
    (grill_state : option Snapshot) (value : Q) :
  let calls := (async_set_native_value grill_id grill_state value).2 in
  (length calls <= 1)%nat
  /\ (forall (g : string) (seconds : Z),
        set_timer_sec g seconds ∈ calls ->
        g = grill_id
        /\ (1 <= value)%Q
        /\ seconds = 60 * round value
        /\ 60 <= seconds
        /\ ((value <= inject_Z native_max_value)%Q -> seconds <= 86400))
  /\ (forall g : string,
        reset_timer g ∈ calls -> g = grill_id /\ (value < 1)%Q).
Proof.
  intros calls. subst calls. unfold async_set_native_value.
  destruct grill_state as [gs|];
    [|cbn; split; [lia|]; split; intros; elems; contradiction].
  destruct (_ && _);
    [|cbn; split; [lia|]; split; intros; elems; contradiction].
  destruct (Qle_bool 1 value) eqn:Hge; cbn.
  - apply Qle_bool_iff in Hge. split; [lia|]. split.
    + intros g seconds Hin. elems. destruct Hin as [[= -> ->] | []].
      split; [reflexivity|]. split; [exact Hge|].
      pose proof (round_ge value 1 Hge) as Hone.
      split; [lia|]. split; [lia|].
      intros Hmax. pose proof (round_le value native_max_value Hmax) as Hr.
      unfold native_max_value in Hr. lia.
    + intros g Hin. elems. destruct Hin as [[=] | []].
  - split; [lia|]. split.
    + intros g seconds Hin. elems. destruct Hin as [[=] | []].
    + intros g Hin. elems. destruct Hin as [[= ->] | []].
      split; [reflexivity|]. apply Qnot_le_lt. intros Hle.
      apply Qle_bool_iff in Hle. congruence.
Qed.

End WithConsts.

(** Manual-cook mode and 30.5 minutes. *)
Lemma timer_whole_minutes_witness :
  "grill" = "grill"
  /\ (1 <= 61 # 2)%Q
  /\ 1800 = 60 * round (61 # 2)
  /\ 60 <= 1800
  /\ ((61 # 2 <= inject_Z native_max_value)%Q -> 1800 <= 86400).
Proof.
  apply (proj1 (proj2 (@timer_whole_minutes sample_consts "grill"
                         (Some (sample_snapshot 6 225 225 FAHRENHEIT))
                         (61 # 2)))).
  vm_compute. apply list_elem_of_here.
Defined.

End TimerFacts.

(** ** [CookCycNumberEntity]: commanding a step *)

Module CookCycCommand.
Import CookCycNumberEntity CookCycSpec CookCycMoreSpec CookCycFacts
  CookCycMore.
Local Open Scope py_scope.

Section WithConsts.
Context `{GrillConsts}.

(** X19. Setting the number and evaluating: a value that rounds to 0 stops
    the cycle, the evaluation returns 0 and issues nothing, whatever the
    grill reports. A value that rounds to the index [k] of a step other than
    the previous index, on a cooking grill, enters that step at once: the
    evaluation issues exactly the step's entry commands and returns [k], or
    0 if the step shuts down. *)
Theorem command_starts_step (gs : Snapshot) (self : t) (value : Q) :
  let k := round value in
  let out := native_value (Some gs) (after (async_set_native_value value self)) in
  (k = 0 ->
     result out = Ok 0 /\ issued out = []
     /\ num_value (after out) = 0 /\ old_num_value (after out) = 0)
  /\ (forall curstep : gmap string Z,
        k > 0 ->
        k ≠ old_num_value self ->
        cook_cycle self !! Z.to_nat (k - 1) = Some curstep ->
        gs_system_status gs ∉ not_cooking_modes ->
        result out = Ok (if shuts_down curstep then 0 else k)
        /\ issued out = entry_calls (grill_id self) k curstep gs).
Proof.
  intros k out. subst out.
  cbn [after async_set_native_value set_num_value fst snd].
  set (self' := with_num_value (round value) self).
  assert (Hnum : num_value self' = k) by reflexivity.
  assert (Hold : old_num_value self' = old_num_value self) by reflexivity.
  assert (Hcc : cook_cycle self' = cook_cycle self) by reflexivity.
  split.
  - intros Hk.
    assert (Hg : guard_exit self' (Some gs) = false).
    { unfold guard_exit. rewrite Hnum.
      rewrite !bool_decide_eq_false_2 by lia. reflexivity. }
    assert (Hsame : on_same_step self' = false).
    { unfold on_same_step. rewrite Hnum.
      rewrite bool_decide_eq_false_2 by lia. reflexivity. }
    assert (Hnew : on_new_step self' = false).
    { unfold on_new_step. rewrite Hnum.
      rewrite bool_decide_eq_false_2 by lia. reflexivity. }
    rewrite (native_value_body gs self' self' [] Hg
               (scan_skipped gs self' Hsame)).
    rewrite (implement_skipped gs self' Hnew).
    rewrite final_clamp_in_range by (rewrite Hnum; lia).
    cbn. fold k. rewrite Hk. repeat split.
  - intros curstep Hpos Hne Hstep Hmode.
    assert (Hlen : k <= Z.of_nat (length (cook_cycle self))).
    { apply lookup_lt_Some in Hstep. lia. }
    assert (Hg : guard_exit self' (Some gs) = false).
    { unfold guard_exit. rewrite Hnum, Hcc.
      rewrite (bool_decide_eq_false_2 (k > _)) by lia.
      rewrite (bool_decide_eq_false_2 _ Hmode).
      rewrite andb_false_r. reflexivity. }
    assert (Hnew : on_new_step self' = true).
    { apply on_new_step_intro; rewrite Hnum; [exact Hpos | rewrite Hold; exact Hne]. }
    rewrite (native_value_body gs self' self' [] Hg
               (scan_skipped gs self' (on_same_step_new _ Hnew))).
    rewrite (implement_entering gs self' curstep Hnew Hstep).
    cbn [app result after issued fst snd].
    destruct (shuts_down curstep) eqn:Hsd.
    + rewrite final_clamp_in_range by (cbn; lia). cbn. split; reflexivity.
    + rewrite final_clamp_in_range by (cbn; fold k; lia). cbn.
      split; reflexivity.
Qed.

End WithConsts.

(** A fresh two-step cycle, the number set to 2. *)
Lemma command_starts_step_witness :
  result (native_value (H := sample_consts) (Some (cooking 0))
            (after (async_set_native_value 2 on_first_step)))
  = Ok 2.
Proof.
  refine (proj1 (proj2 (@command_starts_step sample_consts (cooking 0)
                          on_first_step 2)
                   {[ "time_set" := 600 ]} _ _ _ _)).
  - reflexivity.
  - discriminate.
  - reflexivity.
  - by_compute.
Defined.

End CookCycCommand.
